(** * On-demand feature views: a shallow embedding of
      [sdk/python/feast/on_demand_feature_view.py]

    The development follows the Python module top to bottom: the exceptions
    it raises, the pandas frames it works on, the classes it reads
    ([Feature], [FeatureView]), the class it defines
    ([OnDemandFeatureView]) with its protobuf messages, and then the four
    methods [to_proto], [from_proto], [get_transformed_features_df] and
    [infer_features_from_batch_source]. *)

From Stdlib Require Import ZArith.
From stdpp Require Import base list strings gmap fin_maps.

Local Open Scope string_scope.
Local Open Scope list_scope.
Local Open Scope stdpp_scope.
#[local] Set Warnings "-clear-no-such-hyp".

(** ** Exceptions and fallible computations *)

(** The exceptions that can leave the methods of the module.  The first two
    are the ones the module raises itself; [KeyError] is what pandas raises
    for a column label that is not there; [Raised] stands for whatever a
    collaborator raises (the user function, dill, the type map, the
    [ValueType] enumeration). *)
Inductive exn : Type :=
| SpecifiedFeaturesNotPresentError (specified_features : list string)
                                   (feature_view_name : string)
| RegistryInferenceFailure (repo_obj_type : string) (msg : string)
| KeyError (labels : list string)
| MalformedDefinition
    (* Modelled from the spec: the error kind of spec section 7; no line of
       the source constructs it. *)
| Raised (e : string).

Inductive result (A : Type) : Type :=
| Ok (a : A)
| Err (e : exn).
Arguments Ok {A} a.
Arguments Err {A} e.

#[global] Instance result_bind : MBind result := λ A B k r,
  match r with
  | Ok a => k a
  | Err e => Err e
  end.

(** A Python loop that threads a value through a body that may raise: the
    first exception aborts it. *)
Fixpoint fold_each {A S : Type} (f : S → A → result S) (s : S) (l : list A)
  : result S :=
  match l with
  | [] => Ok s
  | a :: l' => s' ← f s a; fold_each f s' l'
  end.

(** A Python comprehension whose body may raise: the first exception
    aborts it. *)
Fixpoint for_each {A B : Type} (f : A → result B) (l : list A)
  : result (list B) :=
  match l with
  | [] => Ok []
  | a :: l' => b ← f a; bs ← for_each f l'; Ok (b :: bs)
  end.

(** ** pandas frames *)

(** A [pd.Series] restricted to what the module looks at: its dtype (by
    its [str]) and its cells. *)
Record Series (Value : Type) : Type := mkSeries {
  dtype : string;
  values : list Value
}.
Arguments mkSeries {Value} dtype values.
Arguments dtype {Value} s.
Arguments values {Value} s.

(** A [pd.DataFrame]: its columns in order, each under its label.  The
    frames of interest carry each label once; the theorems on caller
    supplied frames say so with [NoDup (keys df)]. *)
Abbreviation DataFrame Value := (list (string * Series Value)).

Section Frames.
Context {Value : Type}.
Implicit Types (df : DataFrame Value) (s : Series Value) (k : string).

(** [df.keys()], also [df.columns]. *)
Definition keys df : list string := df.*1.

(** [df[k]], read together with the test [k in df.keys()] that guards it
    in the source: [None] is the case where the test fails. *)
Fixpoint getitem df k : option (Series Value) :=
  match df with
  | [] => None
  | (c, s) :: df' => if decide (c = k) then Some s else getitem df' k
  end.

(** [df[k] = s]: an existing column is replaced where it stands, a new
    one is appended. *)
Definition setitem df k s : DataFrame Value :=
  if decide (k ∈ keys df)
  then (λ cs, if decide (cs.1 = k) then (cs.1, s) else cs) <$> df
  else df ++ [(k, s)].

(** [df.drop(columns=cols, inplace=True)]: pandas raises [KeyError] with
    the labels it does not find and then leaves the frame alone. *)
Definition drop df (cols : list string) : result (DataFrame Value) :=
  match filter (λ c, c ∉ keys df) cols with
  | [] => Ok (filter (λ cs, cs.1 ∉ cols) df)
  | missing => Err (KeyError missing)
  end.
End Frames.
Arguments drop {Value} df cols : simpl never.
Arguments setitem {Value} df k s : simpl never.

(** ** The classes the module reads *)

Module Feature.
(** [feast.feature.Feature]. *)
Record t (ValueType : Type) : Type := mk {
  name : string;
  dtype : ValueType;
  labels : gmap string string
}.
Arguments mk {ValueType} name dtype labels.
Arguments name {ValueType} t.
Arguments dtype {ValueType} t.
Arguments labels {ValueType} t.

(** Modelled from the spec: [Feature.__eq__] is not part of this module;
    section 3 gives it: equality is by (name, value type), labels do not
    take part. *)
Definition eq {ValueType : Type} (f g : t ValueType) : Prop :=
  name f = name g ∧ dtype f = dtype g.

#[global] Instance eq_dec {ValueType : Type} `{EqDecision ValueType}
  (f g : t ValueType) : Decision (eq f g).
Proof. unfold eq. apply _. Defined.
End Feature.

Module FeatureView.
(** [feast.feature_view.FeatureView], the two attributes this module
    reads. *)
Record t (ValueType : Type) : Type := mk {
  name : string;
  features : list (Feature.t ValueType)
}.
Arguments mk {ValueType} name features.
Arguments name {ValueType} t.
Arguments features {ValueType} t.
End FeatureView.

(** ** The user defined function *)

(** What a call of the user function hands back: the very frame it was
    given, or a frame of its own. *)
Inductive returned (Value : Type) : Type :=
| TheArgument
| Fresh (out : DataFrame Value).
Arguments TheArgument {Value}.
Arguments Fresh {Value} out.

Module Udf.
(** A Python function on frames.  The frame it receives is a shared
    object, so a call maps the content of that object to its content
    after the call, together with what the call returned or raised. *)
Record t (Value : Type) : Type := mk {
  __name__ : string;
  __call__ : DataFrame Value → DataFrame Value * result (returned Value)
}.
Arguments mk {Value} __name__ __call__.
Arguments __name__ {Value} t.
Arguments __call__ {Value} t df.

(** The content of the frame a call returned, once the argument object
    holds [arg]. *)
Definition content {Value : Type} (arg : DataFrame Value)
  (r : returned Value) : DataFrame Value :=
  match r with
  | TheArgument => arg
  | Fresh out => out
  end.

(** What a caller of the bare function sees: the returned frame, or the
    exception. *)
Definition run {Value : Type} (u : t Value) (df : DataFrame Value)
  : result (DataFrame Value) :=
  let '(df', r) := __call__ u df in
  out ← r; Ok (content df' out).

(** A function in the sense of the spec's data model, a mapping from
    batches to batches: it leaves its argument as it found it and
    answers with a frame of its own. *)
Definition pure {Value : Type} (u : t Value) : Prop :=
  ∀ df, (__call__ u df).1 = df ∧ (__call__ u df).2 ≠ Ok TheArgument.
End Udf.

(** ** OnDemandFeatureView *)

Module OnDemandFeatureView.
Record t (Value ValueType : Type) : Type := mk {
  name : string;
  features : list (Feature.t ValueType);
  inputs : list (string * FeatureView.t ValueType);
  udf : Udf.t Value
}.
Arguments mk {Value ValueType} name features inputs udf.
Arguments name {Value ValueType} t.
Arguments features {Value ValueType} t.
Arguments inputs {Value ValueType} t.
Arguments udf {Value ValueType} t.
End OnDemandFeatureView.

Abbreviation ODFV := OnDemandFeatureView.t.

Section Execution.
Context {Value ValueType : Type}.
Implicit Types (self : ODFV Value ValueType) (df : DataFrame Value).

(** [f"{input_fv.name}__{feature.name}"] *)
Definition full_feature_ref (input_fv : FeatureView.t ValueType)
  (feature : Feature.t ValueType) : string :=
  FeatureView.name input_fv +:+ "__" +:+ Feature.name feature.

(** The body of the inner loop of lines 120-126, on the pair of the
    frame and [columns_to_cleanup].  On a frame that carries the prefixed
    label more than once [df[label]] is a frame, not a column, and the
    assignment raises; this definition is the loop body on frames with
    distinct labels, and the theorems on the method take
    [NoDup (keys df)] for a hypothesis wherever a column is copied. *)
Definition copy_feature (input_fv : FeatureView.t ValueType)
  (st : DataFrame Value * list string) (feature : Feature.t ValueType)
  : DataFrame Value * list string :=
  match getitem st.1 (full_feature_ref input_fv feature) with
  | Some s => (setitem st.1 (Feature.name feature) s,
               st.2 ++ [Feature.name feature])
  | None => st
  end.

(** Lines 119-126: both loops, over [self.inputs.values()] and over the
    features of each view. *)
Definition copy_features (views : list (FeatureView.t ValueType))
  (st : DataFrame Value * list string) : DataFrame Value * list string :=
  foldl (λ st input_fv,
           foldl (copy_feature input_fv) st (FeatureView.features input_fv))
        st views.

(** [get_transformed_features_df]: the content of [df_with_features]
    when the method is left, and what the method returns or raises. *)
Definition get_transformed_features_df self (full_feature_names : bool)
  (df_with_features : DataFrame Value)
  : DataFrame Value * result (DataFrame Value) :=
  let '(df1, columns_to_cleanup) :=
    if full_feature_names
    then copy_features (OnDemandFeatureView.inputs self).*2
                       (df_with_features, [])
    else (df_with_features, []) in
  match Udf.__call__ (OnDemandFeatureView.udf self) df1 with
  | (df2, Err e) => (df2, Err e)
  | (df2, Ok ret) =>
      match drop df2 columns_to_cleanup with
      | Err e => (df2, Err e)
      | Ok df3 => (df3, Ok (Udf.content df3 ret))
      end
  end.

(** The frame the user function is called on. *)
Definition handed self (full_feature_names : bool) df : DataFrame Value :=
  if full_feature_names
  then (copy_features (OnDemandFeatureView.inputs self).*2 (df, [])).1
  else df.

(** [columns_to_cleanup] when the user function is called. *)
Definition columns_to_cleanup self df : list string :=
  (copy_features (OnDemandFeatureView.inputs self).*2 (df, [])).2.

(** The invariant of the copy step on a frame none of whose labels is a
    bare feature name: the columns added so far stand behind the caller's
    columns and [columns_to_cleanup] names exactly them. *)
Definition behind df (st : DataFrame Value * list string) : Prop :=
  ∃ extra, st.1 = df ++ extra
           ∧ (∀ c, c ∈ st.2 ↔ c ∈ keys extra)
           ∧ (∀ c, c ∈ st.2 → c ∉ keys df).
End Execution.

(** ** The protobuf messages *)

Module FeatureSpecProto.
Record t : Type := mk {
  name : string;
  value_type : Z;
  labels : gmap string string
}.
End FeatureSpecProto.

Module UserDefinedFunctionProto.
Record t : Type := mk {
  name : string;
  body : list Byte.byte
}.
End UserDefinedFunctionProto.

Module OnDemandFeatureViewSpec.
(** [inputs] is a protobuf map field: a finite map, whose iteration
    order is not the order of insertion. *)
Record t (FeatureViewProto : Type) : Type := mk {
  name : string;
  features : list FeatureSpecProto.t;
  inputs : gmap string FeatureViewProto;
  user_defined_function : UserDefinedFunctionProto.t
}.
Arguments mk {FeatureViewProto} name features inputs user_defined_function.
Arguments name {FeatureViewProto} t.
Arguments features {FeatureViewProto} t.
Arguments inputs {FeatureViewProto} t.
Arguments user_defined_function {FeatureViewProto} t.
End OnDemandFeatureViewSpec.

Module OnDemandFeatureViewProto.
Record t (FeatureViewProto : Type) : Type := mk {
  spec : OnDemandFeatureViewSpec.t FeatureViewProto
}.
Arguments mk {FeatureViewProto} spec.
Arguments spec {FeatureViewProto} t.
End OnDemandFeatureViewProto.

(** ** [to_proto] and [from_proto] *)

Section Codec.
Context {Value ValueType FeatureViewProto : Type}.

(** The collaborators of the codec: the [ValueType] enumeration (a
    member's number, and the call [ValueType(n)], which raises on a
    number without member), the codec of [FeatureView], and dill. *)
Variable value : ValueType → Z.
Variable ValueType_of : Z → result ValueType.
Variable FeatureView_to_proto : FeatureView.t ValueType → FeatureViewProto.
Variable FeatureView_from_proto :
  FeatureViewProto → result (FeatureView.t ValueType).
Variable dill_dumps : Udf.t Value → result (list Byte.byte).
Variable dill_loads : list Byte.byte → result (Udf.t Value).

(** Modelled from the spec: [Feature.to_proto] is not part of this
    module; section 4.3 gives the encoded form of a Feature Schema
    Element: name, value-type ordinal, labels. *)
Definition Feature_to_proto (feature : Feature.t ValueType)
  : FeatureSpecProto.t :=
  FeatureSpecProto.mk (Feature.name feature)
                      (value (Feature.dtype feature))
                      (Feature.labels feature).

Definition to_proto (self : ODFV Value ValueType)
  : result (OnDemandFeatureViewProto.t FeatureViewProto) :=
  let features := Feature_to_proto <$> OnDemandFeatureView.features self in
  let inputs : gmap string FeatureViewProto :=
    list_to_map (prod_map id FeatureView_to_proto
                   <$> OnDemandFeatureView.inputs self) in
  body ← dill_dumps (OnDemandFeatureView.udf self);
  Ok (OnDemandFeatureViewProto.mk
        (OnDemandFeatureViewSpec.mk
           (OnDemandFeatureView.name self) features inputs
           (UserDefinedFunctionProto.mk
              (Udf.__name__ (OnDemandFeatureView.udf self)) body))).

(** Lines 93-97. *)
Definition Feature_of_proto (feature : FeatureSpecProto.t)
  : result (Feature.t ValueType) :=
  dtype ← ValueType_of (FeatureSpecProto.value_type feature);
  Ok (Feature.mk (FeatureSpecProto.name feature) dtype
                 (FeatureSpecProto.labels feature)).

(** Lines 101-102. *)
Definition input_of_proto (item : string * FeatureViewProto)
  : result (string * FeatureView.t ValueType) :=
  feature_view ← FeatureView_from_proto item.2;
  Ok (item.1, feature_view).

(** The arguments of [cls(...)] are evaluated in the order they are
    written, so the first that raises decides the exception. *)
Definition from_proto
  (on_demand_feature_view_proto : OnDemandFeatureViewProto.t FeatureViewProto)
  : result (ODFV Value ValueType) :=
  let spec := OnDemandFeatureViewProto.spec on_demand_feature_view_proto in
  features ← for_each Feature_of_proto (OnDemandFeatureViewSpec.features spec);
  inputs ← for_each input_of_proto
                    (map_to_list (OnDemandFeatureViewSpec.inputs spec));
  udf ← dill_loads (UserDefinedFunctionProto.body
                      (OnDemandFeatureViewSpec.user_defined_function spec));
  Ok (OnDemandFeatureView.mk (OnDemandFeatureViewSpec.name spec)
                             features inputs udf).
End Codec.

(** ** [infer_features_from_batch_source] *)

Section Inference.
Context {Value ValueType : Type} `{EqDecision ValueType}.

(** [feast.type_map]: both directions of the value type mapping; either
    raises on a type it does not know. *)
Variable feast_value_type_to_pandas_type : ValueType → result string.
Variable python_type_to_feast_value_type :
  string → string → result ValueType.

(** Lines 148-150, the body of the inner loop. *)
Definition probe_feature (feature_view : FeatureView.t ValueType)
  (df : DataFrame Value) (feature : Feature.t ValueType)
  : result (DataFrame Value) :=
  dtype ← feast_value_type_to_pandas_type (Feature.dtype feature);
  let df := setitem df (full_feature_ref feature_view feature)
                    (mkSeries dtype []) in
  Ok (setitem df (Feature.name feature) (mkSeries dtype [])).

(** Lines 145-150: the frame handed to the user function. *)
Definition probe_frame (views : list (FeatureView.t ValueType))
  : result (DataFrame Value) :=
  fold_each (λ df feature_view,
               fold_each (probe_feature feature_view) df
                         (FeatureView.features feature_view))
            [] views.

(** Lines 153-158, the body of the loop over
    [zip(output_df.columns, output_df.dtypes)].  [Feature(name, dtype)]
    leaves the labels at their default, none. *)
Definition inferred_feature (column : string * Series Value)
  : result (Feature.t ValueType) :=
  dtype ← python_type_to_feast_value_type column.1 (dtype column.2);
  Ok (Feature.mk column.1 dtype ∅).

(** [specified_features not in inferred_features], through
    [Feature.__eq__]. *)
Definition not_in (specified_features : Feature.t ValueType)
  (inferred_features : list (Feature.t ValueType)) : Prop :=
  ¬ Exists (Feature.eq specified_features) inferred_features.

Definition with_features (self : ODFV Value ValueType)
  (features : list (Feature.t ValueType)) : ODFV Value ValueType :=
  OnDemandFeatureView.mk (OnDemandFeatureView.name self) features
                         (OnDemandFeatureView.inputs self)
                         (OnDemandFeatureView.udf self).

(** Lines 172-176. *)
Definition check_features (self : ODFV Value ValueType)
  : ODFV Value ValueType * result unit :=
  match OnDemandFeatureView.features self with
  | [] => (self,
           Err (RegistryInferenceFailure
                  "OnDemandFeatureView"
                  ("Could not infer Features for the feature view '"
                     +:+ OnDemandFeatureView.name self +:+ "'.")))
  | _ :: _ => (self, Ok ())
  end.

(** Lines 160-176. *)
Definition reconcile (self : ODFV Value ValueType)
  (inferred_features : list (Feature.t ValueType))
  : ODFV Value ValueType * result unit :=
  match OnDemandFeatureView.features self with
  | _ :: _ =>
      let missing_features :=
        filter (λ specified_features,
                  not_in specified_features inferred_features)
               (OnDemandFeatureView.features self) in
      match missing_features with
      | _ :: _ =>
          (self, Err (SpecifiedFeaturesNotPresentError
                        (Feature.name <$> missing_features)
                        (OnDemandFeatureView.name self)))
      | [] => check_features self
      end
  | [] => check_features (with_features self inferred_features)
  end.

(** The object after the call, and whether the call returned or
    raised. *)
Definition infer_features_from_batch_source (self : ODFV Value ValueType)
  : ODFV Value ValueType * result unit :=
  match probe_frame (OnDemandFeatureView.inputs self).*2 with
  | Err e => (self, Err e)
  | Ok df =>
      match Udf.run (OnDemandFeatureView.udf self) df with
      | Err e => (self, Err e)
      | Ok output_df =>
          match for_each inferred_feature output_df with
          | Err e => (self, Err e)
          | Ok inferred_features => reconcile self inferred_features
          end
      end
  end.

(** The Feature Schema Elements the loops of lines 146-147 visit, each
    with its view, in the order of the visit. *)
Definition elements (views : list (FeatureView.t ValueType))
  : list (FeatureView.t ValueType * Feature.t ValueType) :=
  feature_view ← views;
  pair feature_view <$> FeatureView.features feature_view.

(** The two labels lines 149-150 assign for an element. *)
Definition probe_labels (element : FeatureView.t ValueType * Feature.t ValueType)
  : list string :=
  [full_feature_ref element.1 element.2; Feature.name element.2].

(** The loops of lines 146-150 from a frame [df] on. *)
Definition probe_from (views : list (FeatureView.t ValueType))
  (df : DataFrame Value) : result (DataFrame Value) :=
  fold_each (λ df feature_view,
               fold_each (probe_feature feature_view) df
                         (FeatureView.features feature_view))
            df views.

(** What the probe frame is like once the elements [done] are through:
    their labels are there, and every column is empty and typed for one
    of them. *)
Definition probed (done : list (FeatureView.t ValueType * Feature.t ValueType))
  (df : DataFrame Value) : Prop :=
  (∀ element c, element ∈ done → c ∈ probe_labels element → c ∈ keys df)
  ∧ (∀ c s, (c, s) ∈ df →
       values s = []
       ∧ ∃ element, element ∈ done ∧ c ∈ probe_labels element
                    ∧ feast_value_type_to_pandas_type
                        (Feature.dtype element.2) = Ok (dtype s)).
End Inference.

(** *** The method over any equality of features

    [Feature.__eq__] is not part of this module.  The definitions above
    take it from section 3 of the specification; the ones below take it
    as they find it, a decidable relation [__eq__], and are the method
    of lines 135-176 otherwise. *)

Module WithEquality.
Section Inference.
Context {Value ValueType : Type}.
Variable feast_value_type_to_pandas_type : ValueType → result string.
Variable python_type_to_feast_value_type :
  string → string → result ValueType.
Variable __eq__ : Feature.t ValueType → Feature.t ValueType → Prop.
Context `{∀ f g, Decision (__eq__ f g)}.

(** [specified_features not in inferred_features], line 163. *)
Definition not_in (specified_features : Feature.t ValueType)
  (inferred_features : list (Feature.t ValueType)) : Prop :=
  ¬ Exists (__eq__ specified_features) inferred_features.

(** Lines 160-176. *)
Definition reconcile (self : ODFV Value ValueType)
  (inferred_features : list (Feature.t ValueType))
  : ODFV Value ValueType * result unit :=
  match OnDemandFeatureView.features self with
  | _ :: _ =>
      let missing_features :=
        filter (λ specified_features,
                  not_in specified_features inferred_features)
               (OnDemandFeatureView.features self) in
      match missing_features with
      | _ :: _ =>
          (self, Err (SpecifiedFeaturesNotPresentError
                        (Feature.name <$> missing_features)
                        (OnDemandFeatureView.name self)))
      | [] => check_features self
      end
  | [] => check_features (with_features self inferred_features)
  end.

(** Lines 145-176. *)
Definition infer_features_from_batch_source (self : ODFV Value ValueType)
  : ODFV Value ValueType * result unit :=
  match probe_frame feast_value_type_to_pandas_type
                    (OnDemandFeatureView.inputs self).*2 with
  | Err e => (self, Err e)
  | Ok df =>
      match Udf.run (OnDemandFeatureView.udf self) df with
      | Err e => (self, Err e)
      | Ok output_df =>
          match for_each (inferred_feature python_type_to_feast_value_type)
                         output_df with
          | Err e => (self, Err e)
          | Ok inferred_features => reconcile self inferred_features
          end
      end
  end.
End Inference.
End WithEquality.

(** ** The statements of the specification, in its own words *)

Section Specification.
Context {Value ValueType : Type}.

(** Section 4.1 of the specification: for every upstream feature group's
    every Feature Schema Element, if the prefixed column exists in the
    batch, its values are copied into (or overwrite) the bare-named
    column.  The prefix is left open here: the specification takes the
    alias of the input binding, [alias_prefix]; the source takes the name
    of the feature view, [view_prefix]. *)
Definition populate_bare (prefix : string * FeatureView.t ValueType → string)
  (inputs : list (string * FeatureView.t ValueType)) (batch : DataFrame Value)
  : DataFrame Value :=
  foldl (λ batch binding,
           foldl (λ batch element,
                    match getitem batch (prefix binding +:+ "__"
                                           +:+ Feature.name element) with
                    | Some s => setitem batch (Feature.name element) s
                    | None => batch
                    end)
                 batch (FeatureView.features binding.2))
        batch inputs.

(** One pass of that loop body, for the element [element] of the binding
    [binding]. *)
Definition populate_one (prefix : string * FeatureView.t ValueType → string)
  (batch : DataFrame Value)
  (element : (string * FeatureView.t ValueType) * Feature.t ValueType)
  : DataFrame Value :=
  match getitem batch (prefix element.1 +:+ "__"
                         +:+ Feature.name element.2) with
  | Some s => setitem batch (Feature.name element.2) s
  | None => batch
  end.

(** The Feature Schema Elements of the bindings, each with its binding,
    in the order of the bindings and of the features of each. *)
Definition bound_elements (inputs : list (string * FeatureView.t ValueType))
  : list ((string * FeatureView.t ValueType) * Feature.t ValueType) :=
  binding ← inputs; pair binding <$> FeatureView.features binding.2.

(** The bare columns of the equivalent batch, said at once: one for every
    element whose prefixed column is in the batch, with the values of
    that column. *)
Definition bare_columns (prefix : string * FeatureView.t ValueType → string)
  (inputs : list (string * FeatureView.t ValueType)) (batch : DataFrame Value)
  : DataFrame Value :=
  omap (λ element,
          pair (Feature.name element.2)
            <$> getitem batch (prefix element.1 +:+ "__"
                                 +:+ Feature.name element.2))
       (bound_elements inputs).

Definition alias_prefix (binding : string * FeatureView.t ValueType)
  : string := binding.1.

Definition view_prefix (binding : string * FeatureView.t ValueType)
  : string := FeatureView.name binding.2.
End Specification.

(** ** A scenario to run the definitions on

    The concrete scenario of section 8 of the specification: an upstream
    view with one float feature [x], and the transform [y = x * 2]. *)

Module Scenario.
Inductive ValueType : Type := INT64 | STRING | FLOAT.

#[global] Instance ValueType_eq_dec : EqDecision ValueType.
Proof. solve_decision. Defined.

Definition feast_value_type_to_pandas_type (t : ValueType) : result string :=
  Ok match t with
     | INT64 => "int64"
     | STRING => "object"
     | FLOAT => "float64"
     end.

Definition python_type_to_feast_value_type (name type_name : string)
  : result ValueType :=
  if decide (type_name = "int64") then Ok INT64
  else if decide (type_name = "object") then Ok STRING
  else if decide (type_name = "float64") then Ok FLOAT
  else Err (Raised "ValueError").

Definition x : Feature.t ValueType := Feature.mk "x" FLOAT ∅.

Definition driver_stats : FeatureView.t ValueType :=
  FeatureView.mk "driver_stats" [x].

(** [df = pd.DataFrame(); df["y"] = features_df["x"] * 2; return df] *)
Definition double : Udf.t Z :=
  Udf.mk "double"
    (λ features_df,
       (features_df,
        match getitem features_df "x" with
        | Some s => Ok (Fresh [("y", mkSeries (dtype s)
                                              (Z.mul 2 <$> values s))])
        | None => Err (KeyError ["x"])
        end)).

(** [return features_df.copy()] *)
Definition copy : Udf.t Z :=
  Udf.mk "copy" (λ features_df, (features_df, Ok (Fresh features_df))).

(** [raise ValueError] *)
Definition failing : Udf.t Z :=
  Udf.mk "failing" (λ features_df, (features_df, Err (Raised "ValueError"))).

(** [return pd.DataFrame()] *)
Definition nothing : Udf.t Z :=
  Udf.mk "nothing" (λ features_df, (features_df, Ok (Fresh []))).

(** [df = pd.DataFrame(); df["a"] = pd.Series(dtype="int64");
    df["b"] = pd.Series(dtype="object"); return df] *)
Definition two_columns : Udf.t Z :=
  Udf.mk "two_columns"
    (λ features_df,
       (features_df,
        Ok (Fresh [("a", mkSeries "int64" []);
                   ("b", mkSeries "object" [])]))).

(** [return features_df] *)
Definition identity : Udf.t Z :=
  Udf.mk "identity" (λ features_df, (features_df, Ok TheArgument)).

(** [del features_df["x"]; return pd.DataFrame()] *)
Definition forgetful : Udf.t Z :=
  Udf.mk "forgetful"
    (λ features_df,
       match getitem features_df "x" with
       | Some _ => (filter (λ cs, cs.1 ≠ "x") features_df, Ok (Fresh []))
       | None => (features_df, Err (KeyError ["x"]))
       end).

(** A second view with a feature of the same bare name and another
    type. *)
Definition trips : FeatureView.t ValueType :=
  FeatureView.mk "trips" [Feature.mk "x" INT64 ∅].

(** The view is bound under its own name, and under another alias. *)
Definition by_name (udf : Udf.t Z) (features : list (Feature.t ValueType))
  : ODFV Z ValueType :=
  OnDemandFeatureView.mk (Udf.__name__ udf) features
                         [("driver_stats", driver_stats)] udf.

Definition by_alias (udf : Udf.t Z) (features : list (Feature.t ValueType))
  : ODFV Z ValueType :=
  OnDemandFeatureView.mk (Udf.__name__ udf) features
                         [("driver", driver_stats)] udf.

(** The collaborators of the codec: the numbers of the enumeration, a
    codec of views that keeps them as they are, and a dill that knows
    the functions above by their names. *)
Definition value (t : ValueType) : Z :=
  match t with
  | STRING => 2
  | INT64 => 4
  | FLOAT => 6
  end.

Definition ValueType_of (n : Z) : result ValueType :=
  if decide (n = 2%Z) then Ok STRING
  else if decide (n = 4%Z) then Ok INT64
  else if decide (n = 6%Z) then Ok FLOAT
  else Err (Raised "ValueError").

Definition FeatureView_to_proto (fv : FeatureView.t ValueType)
  : FeatureView.t ValueType := fv.

Definition FeatureView_from_proto (fv : FeatureView.t ValueType)
  : result (FeatureView.t ValueType) := Ok fv.

Definition dill_dumps (udf : Udf.t Z) : result (list Byte.byte) :=
  Ok (String.list_byte_of_string (Udf.__name__ udf)).

Definition dill_loads (body : list Byte.byte) : result (Udf.t Z) :=
  let name := String.string_of_list_byte body in
  if decide (name = "double") then Ok double
  else if decide (name = "copy") then Ok copy
  else if decide (name = "failing") then Ok failing
  else if decide (name = "nothing") then Ok nothing
  else Err (Raised "UnpicklingError").

(** A wire form whose body is not the serialization of a function. *)
Definition undecodable
  : OnDemandFeatureViewProto.t (FeatureView.t ValueType) :=
  OnDemandFeatureViewProto.mk
    (OnDemandFeatureViewSpec.mk
       "double" [FeatureSpecProto.mk "y" 6 ∅]
       {["driver_stats" := driver_stats]}
       (UserDefinedFunctionProto.mk "double" [])).

(** A wire form of the scenario's definition with its feature declared. *)
Definition encoded : OnDemandFeatureViewProto.t (FeatureView.t ValueType) :=
  OnDemandFeatureViewProto.mk
    (OnDemandFeatureViewSpec.mk
       "double" [FeatureSpecProto.mk "y" 6 ∅]
       {["driver_stats" := driver_stats]}
       (UserDefinedFunctionProto.mk
          "double" (String.list_byte_of_string "double"))).

(** A wire form whose second feature has a number without member. *)
Definition unnumbered
  : OnDemandFeatureViewProto.t (FeatureView.t ValueType) :=
  OnDemandFeatureViewProto.mk
    (OnDemandFeatureViewSpec.mk
       "double" [FeatureSpecProto.mk "y" 6 ∅; FeatureSpecProto.mk "z" 99 ∅]
       {["driver_stats" := driver_stats]}
       (UserDefinedFunctionProto.mk "double" [])).

(** An equality of features that looks at the labels as well. *)
Definition __eq__ (f g : Feature.t ValueType) : Prop :=
  Feature.name f = Feature.name g
  ∧ Feature.dtype f = Feature.dtype g
  ∧ Feature.labels f = Feature.labels g.

#[global] Instance __eq___dec (f g : Feature.t ValueType)
  : Decision (__eq__ f g).
Proof. unfold __eq__. apply _. Defined.

(** A type map that does not know strings, and a view with a string
    feature. *)
Definition numbers_to_pandas_type (t : ValueType) : result string :=
  match t with
  | STRING => Err (Raised "ValueError")
  | _ => feast_value_type_to_pandas_type t
  end.

Definition names : FeatureView.t ValueType :=
  FeatureView.mk "names" [Feature.mk "n" STRING ∅].

Definition over_names : ODFV Z ValueType :=
  OnDemandFeatureView.mk "double" [] [("names", names)] double.

(** A serving batch under full feature names, for either binding. *)
Definition batch_by_name : DataFrame Z :=
  [("driver_stats__x", mkSeries "float64" [1; 2]%Z)].

Definition batch_by_alias : DataFrame Z :=
  [("driver__x", mkSeries "float64" [1; 2]%Z)].
End Scenario.

(** * Properties *)

(** ** Lists *)

Lemma filter_all {A : Type} (P : A → Prop) `{∀ x, Decision (P x)}
  (l : list A) : Forall P l → filter P l = l.
Proof.
  induction 1 as [|x l Hx _ IH]; [done|].
  rewrite filter_cons_True by done. by f_equal.
Qed.

Lemma filter_none {A : Type} (P : A → Prop) `{∀ x, Decision (P x)}
  (l : list A) : Forall (λ x, ¬ P x) l → filter P l = [].
Proof.
  induction 1 as [|x l Hx _ IH]; [done|].
  by rewrite filter_cons_False.
Qed.

(** ** Frames *)

Section FrameFacts.
Context {Value : Type}.
Implicit Types (df : DataFrame Value) (s : Series Value) (k c : string).

Lemma keys_app df1 df2 : keys (df1 ++ df2) = keys df1 ++ keys df2.
Proof. unfold keys. apply fmap_app. Qed.

Lemma getitem_elem_of df k s : getitem df k = Some s → (k, s) ∈ df.
Proof.
  induction df as [|[c x] df IH]; simpl; [done|].
  case_decide as Hc.
  - intros [= <-]. subst. left.
  - intros H. right. auto.
Qed.

Lemma getitem_is_Some df k : is_Some (getitem df k) ↔ k ∈ keys df.
Proof.
  unfold keys. induction df as [|[c x] df IH]; simpl.
  - split; [by intros [? ?] | by intros ?%elem_of_nil].
  - case_decide as Hc; subst.
    + split; [intros _; left | eauto].
    + rewrite IH, elem_of_cons. naive_solver.
Qed.

Lemma getitem_None df k : getitem df k = None ↔ k ∉ keys df.
Proof. rewrite <- getitem_is_Some, eq_None_not_Some. done. Qed.

Lemma getitem_app_l df1 df2 k :
  k ∈ keys df1 → getitem (df1 ++ df2) k = getitem df1 k.
Proof.
  unfold keys. induction df1 as [|[c x] df1 IH]; simpl.
  - by intros ?%elem_of_nil.
  - case_decide; [done|]. rewrite elem_of_cons. naive_solver.
Qed.

Lemma getitem_app_r df1 df2 k :
  k ∉ keys df1 → getitem (df1 ++ df2) k = getitem df2 k.
Proof.
  unfold keys. induction df1 as [|[c x] df1 IH]; simpl; [done|].
  rewrite not_elem_of_cons. intros [? ?]. case_decide; [congruence | auto].
Qed.

(** Assigning a column leaves the columns under other labels alone. *)
Lemma fmap_assign_fresh df k s :
  k ∉ keys df →
  (λ cs : string * Series Value,
     if decide (cs.1 = k) then (cs.1, s) else cs) <$> df = df.
Proof.
  unfold keys. induction df as [|[c x] df IH]; simpl; [done|].
  rewrite not_elem_of_cons. intros [? ?].
  case_decide; [congruence|]. f_equal. auto.
Qed.

Lemma keys_fmap_assign df k s :
  keys ((λ cs : string * Series Value,
           if decide (cs.1 = k) then (cs.1, s) else cs) <$> df) = keys df.
Proof.
  unfold keys. induction df as [|[c x] df IH]; simpl; [done|].
  f_equal; [by case_decide | done].
Qed.

Lemma elem_of_keys_setitem df k s c :
  c ∈ keys (setitem df k s) ↔ c = k ∨ c ∈ keys df.
Proof.
  unfold setitem. case_decide as Hk.
  - rewrite keys_fmap_assign. naive_solver.
  - rewrite keys_app. simpl. rewrite elem_of_app, list_elem_of_singleton.
    naive_solver.
Qed.

(** A column assigned under a label the front of the frame does not carry
    lands behind that front. *)
Lemma setitem_app_fresh df extra k s :
  k ∉ keys df → setitem (df ++ extra) k s = df ++ setitem extra k s.
Proof.
  intros Hk. unfold setitem. rewrite keys_app.
  destruct (decide (k ∈ keys extra)) as [Hin|Hout].
  - rewrite decide_True by (apply elem_of_app; by right).
    rewrite fmap_app. by rewrite fmap_assign_fresh.
  - rewrite decide_False by (rewrite elem_of_app; naive_solver).
    by rewrite <- (assoc_L (++)).
Qed.

(** [drop] of no column at all does nothing, whatever the frame. *)
Lemma drop_nil df : drop df [] = Ok df.
Proof.
  unfold drop. simpl. f_equal.
  apply filter_all, Forall_forall. intros cs _. apply not_elem_of_nil.
Qed.

(** [drop] takes away the columns behind the front when they are the
    ones named and the front carries none of the names. *)
Lemma drop_app_extra df extra cols :
  (∀ c, c ∈ cols → c ∉ keys df) →
  (∀ c, c ∈ cols ↔ c ∈ keys extra) →
  drop (df ++ extra) cols = Ok df.
Proof.
  intros Hfront Hextra. unfold drop.
  assert (filter (λ c, c ∉ keys (df ++ extra)) cols = []) as ->.
  { apply filter_none, Forall_forall. intros c Hc Hn. apply Hn.
    rewrite keys_app, elem_of_app. right. by apply Hextra. }
  f_equal. rewrite filter_app.
  assert (filter (λ cs : string * Series Value, cs.1 ∉ cols) extra = []) as ->.
  { apply filter_none, Forall_forall. intros [c x] Hc Hn. apply Hn.
    apply Hextra. unfold keys. apply list_elem_of_fmap. by exists (c, x). }
  rewrite (right_id_L [] (++)).
  apply filter_all, Forall_forall. intros [c x] Hc Hn. simpl in Hn.
  apply (Hfront c Hn). unfold keys. apply list_elem_of_fmap. by exists (c, x).
Qed.
End FrameFacts.

(** ** [get_transformed_features_df] *)

Section ExecutionFacts.
Context {Value ValueType : Type}.
Implicit Types (self : ODFV Value ValueType) (df : DataFrame Value).
Implicit Types (st : DataFrame Value * list string).
Implicit Types (views : list (FeatureView.t ValueType)).
Implicit Types (input_fv : FeatureView.t ValueType).
Implicit Types (feature : Feature.t ValueType).

(** What holds before the loops and is kept by every pass through the
    inner body holds after them. *)
Lemma copy_features_ind (P : DataFrame Value * list string → Prop) views st :
  P st →
  (∀ input_fv feature st',
     input_fv ∈ views → feature ∈ FeatureView.features input_fv →
     P st' → P (copy_feature input_fv st' feature)) →
  P (copy_features views st).
Proof.
  unfold copy_features. revert st.
  induction views as [|fv views IH]; intros st Hst Hstep; simpl; [done|].
  apply IH.
  - assert (∀ fs st', (∀ f, f ∈ fs → f ∈ FeatureView.features fv) →
              P st' → P (foldl (copy_feature fv) st' fs)) as Hinner.
    { induction fs as [|f fs IHfs]; intros st' Hsub Hst'; simpl; [done|].
      apply IHfs.
      - intros g Hg. apply Hsub. by right.
      - apply Hstep; [left | apply Hsub; left | done]. }
    by apply Hinner.
  - intros fv' f st' Hfv' Hf. apply Hstep; [by right | done].
Qed.

Lemma copy_feature_behind df input_fv st feature :
  Feature.name feature ∉ keys df →
  behind df st → behind df (copy_feature input_fv st feature).
Proof.
  intros Hfresh (extra & Hst & Hcl & Hdisj). unfold copy_feature.
  destruct (getitem st.1 (full_feature_ref input_fv feature)) as [s|];
    [|by exists extra].
  exists (setitem extra (Feature.name feature) s). simpl. split_and!.
  - rewrite Hst. by apply setitem_app_fresh.
  - intros c. rewrite elem_of_app, list_elem_of_singleton,
      elem_of_keys_setitem, Hcl. naive_solver.
  - intros c. rewrite elem_of_app, list_elem_of_singleton.
    intros [Hc | ->]; [by apply Hdisj | done].
Qed.

Lemma copy_features_behind df views :
  (∀ input_fv feature,
     input_fv ∈ views → feature ∈ FeatureView.features input_fv →
     Feature.name feature ∉ keys df) →
  behind df (copy_features views (df, [])).
Proof.
  intros Hfresh. apply copy_features_ind.
  - exists []. simpl. split_and!.
    + by rewrite (right_id_L [] (++)).
    + intros c. split; by intros ?%elem_of_nil.
    + by intros c ?%elem_of_nil.
  - intros fv f st' Hfv Hf. apply copy_feature_behind. by eapply Hfresh.
Qed.

(** Every name in [columns_to_cleanup] is a label of the frame when the
    user function is called. *)
Lemma copy_features_cleanup_present views df :
  ∀ c, c ∈ (copy_features views (df, [])).2 →
       c ∈ keys (copy_features views (df, [])).1.
Proof.
  apply (copy_features_ind (λ st, ∀ c, c ∈ st.2 → c ∈ keys st.1)).
  - by intros c ?%elem_of_nil.
  - intros fv f st' _ _ IH c. unfold copy_feature.
    destruct (getitem st'.1 (full_feature_ref fv f)); [|by apply IH].
    simpl. rewrite elem_of_app, list_elem_of_singleton, elem_of_keys_setitem.
    naive_solver.
Qed.

Lemma drop_present df cols :
  (∀ c, c ∈ cols → c ∈ keys df) →
  drop df cols = Ok (filter (λ cs, cs.1 ∉ cols) df).
Proof.
  intros Hin. unfold drop.
  rewrite (filter_none (λ c, c ∉ keys df)); [done|].
  apply Forall_forall. intros c Hc Hn. by apply Hn, Hin.
Qed.
End ExecutionFacts.

Section ExecutionTheorems.
Context {Value ValueType : Type}.
Implicit Types (self : ODFV Value ValueType) (df : DataFrame Value).

(** C10.  With [full_feature_names] false the method copies no column and
    removes none: the user function is called on the frame as given and
    the frame is left as the user function left it.  When the user
    function raises, the method raises the same; when it answers with a
    frame of its own, the method returns that frame; when it answers with
    its argument, the method returns the frame as the user function left
    it. *)
Theorem bare_names_untouched self df :
  match Udf.__call__ (OnDemandFeatureView.udf self) df with
  | (df', Err e) =>
      get_transformed_features_df self false df = (df', Err e)
  | (df', Ok TheArgument) =>
      get_transformed_features_df self false df = (df', Ok df')
  | (df', Ok (Fresh out)) =>
      get_transformed_features_df self false df = (df', Ok out)
  end.
Proof.
  unfold get_transformed_features_df. cbn.
  destruct (Udf.__call__ (OnDemandFeatureView.udf self) df)
    as [df2 [[|out]|e]]; [| |done].
  - by rewrite drop_nil.
  - by rewrite drop_nil.
Qed.

(** C1, as amended.  On a frame with distinct labels, when the user
    function returns normally and leaves its argument as it received it,
    and no bare feature name of an upstream view is a label of the
    caller's frame, the method returns normally and the caller's frame is
    as it was before the call: every column of the copy step is gone and
    every column of the caller is there, in place. *)
Theorem cleanup_on_normal_return self (full_feature_names : bool) df ret :
  NoDup (keys df) →
  (∀ x, (Udf.__call__ (OnDemandFeatureView.udf self) x).1 = x) →
  (full_feature_names = true →
   ∀ input_fv feature,
     input_fv ∈ (OnDemandFeatureView.inputs self).*2 →
     feature ∈ FeatureView.features input_fv →
     Feature.name feature ∉ keys df) →
  (Udf.__call__ (OnDemandFeatureView.udf self)
                (handed self full_feature_names df)).2 = Ok ret →
  get_transformed_features_df self full_feature_names df
    = (df, Ok (Udf.content df ret)).
Proof.
  intros _ Hleaves Hfresh. unfold handed, get_transformed_features_df.
  destruct full_feature_names.
  - pose proof (copy_features_behind df _ (Hfresh eq_refl))
      as (extra & Hst & Hcl & Hdisj).
    destruct (copy_features _ _) as [df1 cleanup]. cbn in *. subst df1.
    pose proof (Hleaves (df ++ extra)) as Hsame.
    destruct (Udf.__call__ _ _) as [df2 r]. cbn in *. subst df2.
    intros ->. by rewrite (drop_app_extra df extra cleanup).
  - pose proof (Hleaves df) as Hsame.
    destruct (Udf.__call__ _ _) as [df2 r]. cbn in *. subst df2.
    intros ->. by rewrite drop_nil.
Qed.

(** The copy step of the source is the population of the bare columns of
    the specification, with the name of the view for prefix. *)
Lemma copy_features_populate (inputs : list (string * FeatureView.t ValueType))
  (st : DataFrame Value * list string) :
  (copy_features inputs.*2 st).1 = populate_bare view_prefix inputs st.1.
Proof.
  unfold copy_features, populate_bare. revert st.
  induction inputs as [|[alias fv] inputs IH]; intros st; simpl; [done|].
  rewrite IH. f_equal. generalize (FeatureView.features fv). clear.
  intros fs. revert st.
  induction fs as [|f fs IH]; intros st; simpl; [done|].
  rewrite IH. f_equal. unfold copy_feature, view_prefix, full_feature_ref.
  simpl. by destruct (getitem _ _).
Qed.

(** The population of the bare columns, element by element. *)
Lemma populate_bare_flat prefix
  (inputs : list (string * FeatureView.t ValueType)) df :
  populate_bare prefix inputs df
  = foldl (populate_one prefix) df (bound_elements inputs).
Proof.
  unfold populate_bare, bound_elements. revert df.
  induction inputs as [|binding inputs IH]; intros df; [done|].
  simpl. rewrite foldl_app, IH. f_equal.
  generalize (FeatureView.features binding.2). intros fs. revert df.
  induction fs as [|f fs IHfs]; intros df; [done|]. simpl. by rewrite IHfs.
Qed.

(** Where the bare names are distinct, none of them is a label of the
    batch and none of them is a prefixed name, the population appends to
    the batch one bare column for every element whose prefixed column is
    in the batch, with the values of that column. *)
Lemma populate_bare_appended prefix
  (inputs : list (string * FeatureView.t ValueType)) df :
  NoDup ((λ element, Feature.name element.2) <$> bound_elements inputs) →
  (∀ element, element ∈ bound_elements inputs →
     Feature.name element.2 ∉ keys df) →
  (∀ element element',
     element ∈ bound_elements inputs → element' ∈ bound_elements inputs →
     Feature.name element.2
     ≠ prefix element'.1 +:+ "__" +:+ Feature.name element'.2) →
  populate_bare prefix inputs df = df ++ bare_columns prefix inputs df.
Proof.
  rewrite populate_bare_flat. unfold bare_columns.
  set (column := λ element : (string * FeatureView.t ValueType)
                             * Feature.t ValueType,
         pair (Feature.name element.2)
           <$> getitem df (prefix element.1 +:+ "__"
                             +:+ Feature.name element.2)).
  assert (∀ done k, k ∈ keys (omap column done) →
            ∃ element, element ∈ done ∧ k = Feature.name element.2)
    as Hkeys.
  { intros done k. unfold keys. rewrite list_elem_of_fmap.
    intros ([k' s] & -> & Hin).
    apply list_elem_of_omap in Hin as (element & Hel & Hcol).
    exists element. split; [done|]. unfold column in Hcol.
    destruct (getitem df _); simpl in Hcol; by simplify_eq. }
  generalize (bound_elements inputs). intros rest Hdistinct Hfresh Hprefixed.
  assert (∀ done,
            NoDup ((λ element, Feature.name element.2) <$> done ++ rest) →
            (∀ element, element ∈ done ++ rest →
               Feature.name element.2 ∉ keys df) →
            (∀ element element',
               element ∈ done ++ rest → element' ∈ done ++ rest →
               Feature.name element.2
               ≠ prefix element'.1 +:+ "__" +:+ Feature.name element'.2) →
            foldl (populate_one prefix) (df ++ omap column done) rest
            = df ++ omap column (done ++ rest)) as Hgen.
  { clear Hdistinct Hfresh Hprefixed.
    induction rest as [|element rest IH];
      intros done Hdistinct Hfresh Hprefixed.
    - by rewrite (right_id_L [] (++)).
    - rewrite (cons_middle element), (assoc_L (++))
        in Hdistinct, Hfresh, Hprefixed.
      rewrite (cons_middle element), (assoc_L (++)).
      rewrite <- (IH _ Hdistinct Hfresh Hprefixed). simpl. f_equal.
      assert (element ∈ (done ++ [element]) ++ rest) as Hel.
      { rewrite !elem_of_app, list_elem_of_singleton. naive_solver. }
      unfold populate_one.
      assert (getitem (df ++ omap column done)
                      (prefix element.1 +:+ "__" +:+ Feature.name element.2)
              = getitem df (prefix element.1 +:+ "__"
                              +:+ Feature.name element.2)) as ->.
      { destruct (decide (prefix element.1 +:+ "__"
                            +:+ Feature.name element.2 ∈ keys df))
          as [Hin|Hout].
        - by apply getitem_app_l.
        - rewrite getitem_app_r by done.
          rewrite (proj2 (getitem_None df _)) by done.
          apply getitem_None. intros (element' & Hel' & Heq)%Hkeys.
          apply (Hprefixed element' element); [|done|done].
          rewrite !elem_of_app. naive_solver. }
      rewrite omap_app. simpl.
      assert (column element
              = pair (Feature.name element.2)
                  <$> getitem df (prefix element.1 +:+ "__"
                                    +:+ Feature.name element.2)) as Hcol
        by done.
      destruct (getitem df (prefix element.1 +:+ "__"
                              +:+ Feature.name element.2)) as [s|];
        rewrite Hcol; simpl; [|by rewrite (right_id_L [] (++))].
      rewrite setitem_app_fresh by by apply Hfresh.
      f_equal. unfold setitem. rewrite decide_False; [done|].
      intros (element' & Hel' & Heq)%Hkeys.
      rewrite !fmap_app in Hdistinct.
      apply NoDup_app in Hdistinct as [Hdistinct _].
      apply NoDup_app in Hdistinct as (_ & Hdisjoint & _).
      apply (Hdisjoint (Feature.name element'.2)).
      + apply list_elem_of_fmap. by exists element'.
      + rewrite <- Heq. simpl. left. }
  specialize (Hgen [] Hdistinct Hfresh Hprefixed). simpl in Hgen.
  by rewrite (right_id_L [] (++)) in Hgen.
Qed.

(** C3, as amended.  On a frame with distinct labels and for a user
    function that is a mapping from batches to batches, the method with
    [full_feature_names] true returns or raises what the bare user
    function does on the batch whose bare columns are populated from the
    columns [{view name}__{feature name}].  What that batch is, column by
    column, is [populate_bare_appended]. *)
Theorem prefix_transparency self df :
  NoDup (keys df) →
  Udf.pure (OnDemandFeatureView.udf self) →
  (get_transformed_features_df self true df).2
    = Udf.run (OnDemandFeatureView.udf self)
              (populate_bare view_prefix (OnDemandFeatureView.inputs self) df).
Proof.
  intros _ Hpure.
  rewrite <- (copy_features_populate _ (df, [])).
  unfold get_transformed_features_df, Udf.run.
  pose proof (copy_features_cleanup_present
                (OnDemandFeatureView.inputs self).*2 df) as Hpresent.
  destruct (copy_features _ _) as [df1 cleanup]. cbn in *.
  destruct (Hpure df1) as [Hsame Hfresh].
  destruct (Udf.__call__ _ _) as [df2 [[|out]|e]]; cbn in *;
    [done| |done].
  subst df2. by rewrite drop_present.
Qed.
End ExecutionTheorems.

(** What the scenario of the specification evaluates to: the copy, the
    call, the cleanup. *)
Example scenario_serving :
  get_transformed_features_df (Scenario.by_name Scenario.double []) true
                              Scenario.batch_by_name
  = (Scenario.batch_by_name, Ok [("y", mkSeries "float64" [2; 4]%Z)]).
Proof. vm_compute. reflexivity. Qed.

Lemma bare_names_untouched_witness :
  get_transformed_features_df (Scenario.by_name Scenario.double []) false
                              [("x", mkSeries "float64" [1; 2]%Z)]
  = ([("x", mkSeries "float64" [1; 2]%Z)],
     Ok [("y", mkSeries "float64" [2; 4]%Z)]).
Proof.
  exact (bare_names_untouched (Scenario.by_name Scenario.double [])
                              [("x", mkSeries "float64" [1; 2]%Z)]).
Defined.

Lemma scenario_double_pure : Udf.pure Scenario.double.
Proof.
  intros df. split; [done|]. simpl. by destruct (getitem df "x").
Qed.

Lemma scenario_batch_NoDup : NoDup (keys Scenario.batch_by_name).
Proof. apply NoDup_singleton. Qed.

Lemma cleanup_on_normal_return_witness :
  get_transformed_features_df (Scenario.by_name Scenario.double []) true
                              Scenario.batch_by_name
  = (Scenario.batch_by_name, Ok [("y", mkSeries "float64" [2; 4]%Z)]).
Proof.
  apply (cleanup_on_normal_return
           (Scenario.by_name Scenario.double []) true Scenario.batch_by_name
           (Fresh [("y", mkSeries "float64" [2; 4]%Z)])).
  - apply scenario_batch_NoDup.
  - intros x. reflexivity.
  - intros _ input_fv feature Hfv Hf.
    apply list_elem_of_singleton in Hfv. subst input_fv.
    apply list_elem_of_singleton in Hf. subst feature.
    vm_compute. by intros ?%list_elem_of_singleton.
  - vm_compute. reflexivity.
Defined.

(** C1, as stated, fails where the user function raises: the method has
    no handler around the call, so the bare column [x] of the copy step
    stays in the caller's frame. *)
Lemma cleanup_skipped_on_raise :
  let after := get_transformed_features_df
                 (Scenario.by_name Scenario.failing []) true
                 Scenario.batch_by_name in
  after.2 = Err (Raised "ValueError")
  ∧ keys Scenario.batch_by_name = ["driver_stats__x"]
  ∧ keys after.1 = ["driver_stats__x"; "x"].
Proof. vm_compute. done. Qed.

(** The equivalent batch of the scenario: the serving batch and the bare
    column [x] behind it. *)
Example scenario_equivalent_batch :
  populate_bare view_prefix [("driver_stats", Scenario.driver_stats)]
                Scenario.batch_by_name
  = Scenario.batch_by_name ++ [("x", mkSeries "float64" [1; 2]%Z)].
Proof. vm_compute. reflexivity. Qed.

(** A bare column the caller supplied next to the prefixed one is
    overwritten by the copy step and then removed with the copies. *)
Example supplied_bare_column_removed :
  (get_transformed_features_df
     (Scenario.by_name Scenario.double []) true
     (Scenario.batch_by_name ++ [("x", mkSeries "float64" [7; 8]%Z)])).1
  = Scenario.batch_by_name.
Proof. vm_compute. reflexivity. Qed.

Lemma prefix_transparency_witness :
  (get_transformed_features_df (Scenario.by_name Scenario.double []) true
                               Scenario.batch_by_name).2
  = Udf.run Scenario.double
            (populate_bare view_prefix
               [("driver_stats", Scenario.driver_stats)]
               Scenario.batch_by_name).
Proof.
  apply (prefix_transparency (Scenario.by_name Scenario.double [])
                             Scenario.batch_by_name).
  - apply scenario_batch_NoDup.
  - apply scenario_double_pure.
Defined.

(** C3, as stated, fails where a view is bound under an alias that is not
    its name: the batch carries [driver__x], the source looks for
    [driver_stats__x], copies nothing, and the user function sees no
    column [x]. *)
Lemma alias_prefix_not_transparent :
  let self := Scenario.by_alias Scenario.copy [] in
  let equivalent := populate_bare alias_prefix
                                  (OnDemandFeatureView.inputs self)
                                  Scenario.batch_by_alias in
  keys Scenario.batch_by_alias = ["driver" +:+ "__" +:+ "x"]
  ∧ equivalent
    = Scenario.batch_by_alias ++ [("x", mkSeries "float64" [1; 2]%Z)]
  ∧ Udf.run Scenario.copy equivalent = Ok equivalent
  ∧ (get_transformed_features_df self true Scenario.batch_by_alias).2
    = Ok Scenario.batch_by_alias
  ∧ (get_transformed_features_df self true Scenario.batch_by_alias).2
    ≠ Udf.run Scenario.copy equivalent.
Proof. vm_compute. split_and!; done. Qed.

(** ** [infer_features_from_batch_source] *)

Section InferenceFacts.
Context {Value ValueType : Type} `{EqDecision ValueType}.
Variable feast_value_type_to_pandas_type : ValueType → result string.
Implicit Types (self : ODFV Value ValueType) (df : DataFrame Value).
Implicit Types (views : list (FeatureView.t ValueType)).
Implicit Types (feature_view : FeatureView.t ValueType).
Implicit Types (feature : Feature.t ValueType).
Implicit Types (done : list (FeatureView.t ValueType * Feature.t ValueType)).

Local Abbreviation probe_feature :=
  (probe_feature (Value:=Value) feast_value_type_to_pandas_type).
Local Abbreviation probe_from :=
  (probe_from (Value:=Value) feast_value_type_to_pandas_type).
Local Abbreviation probed :=
  (probed (Value:=Value) feast_value_type_to_pandas_type).
Local Abbreviation probe_frame :=
  (probe_frame (Value:=Value) feast_value_type_to_pandas_type).

Lemma elem_of_elements views feature_view feature :
  (feature_view, feature) ∈ elements views
  ↔ feature_view ∈ views ∧ feature ∈ FeatureView.features feature_view.
Proof.
  unfold elements. rewrite list_elem_of_bind. split.
  - intros (fv & Hin & Hfv). apply list_elem_of_fmap in Hin as (f & [= -> ->] & Hf).
    done.
  - intros [Hfv Hf]. exists feature_view. split; [|done].
    apply list_elem_of_fmap. by exists feature.
Qed.

Lemma elements_cons feature_view views :
  elements (feature_view :: views)
  = (pair feature_view <$> FeatureView.features feature_view)
      ++ elements views.
Proof. done. Qed.

Lemma elem_of_setitem df k s0 c s :
  (c, s) ∈ setitem df k s0 → (c = k ∧ s = s0) ∨ (c, s) ∈ df.
Proof.
  unfold setitem. case_decide as Hk.
  - intros ([c' s'] & Heq & Hin)%list_elem_of_fmap. simpl in Heq.
    case_decide; simplify_eq; [by left | by right].
  - rewrite elem_of_app, list_elem_of_singleton. intros [?|[= -> ->]];
      [by right | by left].
Qed.

Lemma probe_feature_probed done feature_view feature df df' :
  probed done df →
  probe_feature feature_view df feature = Ok df' →
  probed (done ++ [(feature_view, feature)]) df'.
Proof.
  intros [Hlabels Hcolumns]. unfold probe_feature.
  destruct (feast_value_type_to_pandas_type (Feature.dtype feature))
    as [dt|e] eqn:Hdt; simpl; [|done].
  intros [= <-]. split.
  - intros element c Hel Hc. rewrite !elem_of_keys_setitem.
    apply elem_of_app in Hel as [Hel | ->%list_elem_of_singleton].
    + right. right. by eapply Hlabels.
    + unfold probe_labels in Hc. simpl in Hc.
      apply elem_of_cons in Hc as [-> | ->%list_elem_of_singleton];
        [right; by left | by left].
  - assert (∀ c, c ∈ probe_labels (feature_view, feature) →
              ∃ element, element ∈ done ++ [(feature_view, feature)]
                         ∧ c ∈ probe_labels element
                         ∧ feast_value_type_to_pandas_type
                             (Feature.dtype element.2) = Ok dt) as Hnew.
    { intros c Hc. exists (feature_view, feature). split_and!; [|done..].
      apply elem_of_app. right. by apply list_elem_of_singleton. }
    intros c s [[-> ->] | [[-> ->] | Hold]%elem_of_setitem]%elem_of_setitem.
    + split; [done|]. apply Hnew. unfold probe_labels. simpl. set_solver.
    + split; [done|]. apply Hnew. unfold probe_labels. simpl. set_solver.
    + destruct (Hcolumns c s Hold) as [Hempty (element & Hel & Hc & Hty)].
      split; [done|]. exists element. split_and!; [|done..].
      apply elem_of_app. by left.
Qed.

Lemma probe_from_probed views done df df' :
  probed done df →
  probe_from views df = Ok df' →
  probed (done ++ elements views) df'.
Proof.
  revert done df. induction views as [|fv views IH]; intros done df Hdone.
  - simpl. intros [= <-]. by rewrite (right_id_L [] (++)).
  - rewrite elements_cons, (assoc_L (++)).
    unfold probe_from. simpl.
    destruct (fold_each (probe_feature fv) df (FeatureView.features fv))
      as [df1|e] eqn:Hinner; simpl; [|done].
    intros Hrest. apply (IH _ df1); [|done].
    clear IH Hrest. revert done df Hdone Hinner.
    induction (FeatureView.features fv) as [|f fs IHfs]; intros done df Hdone.
    + simpl. intros [= <-]. by rewrite (right_id_L [] (++)).
    + simpl. destruct (probe_feature fv df f) as [df2|e] eqn:Hstep; simpl; [|done].
      intros Hfs. rewrite (cons_middle (fv, f)), (assoc_L (++)).
      apply (IHfs _ df2); [|done]. by eapply probe_feature_probed.
Qed.

(** The probe frame is built whenever the type map knows the declared
    type of every element. *)
Lemma probe_from_total views df :
  (∀ element, element ∈ elements views →
     ∃ dt, feast_value_type_to_pandas_type (Feature.dtype element.2) = Ok dt) →
  ∃ df', probe_from views df = Ok df'.
Proof.
  revert df. induction views as [|fv views IH]; intros df Hknown.
  - by exists df.
  - unfold probe_from. simpl.
    assert (∃ df1, fold_each (probe_feature fv) df (FeatureView.features fv)
                   = Ok df1) as [df1 ->].
    { assert (∀ f, f ∈ FeatureView.features fv →
                ∃ dt, feast_value_type_to_pandas_type (Feature.dtype f) = Ok dt)
        as Hfv.
      { intros f Hf. apply (Hknown (fv, f)), elem_of_elements.
        split; [left | done]. }
      clear Hknown IH. revert df.
      induction (FeatureView.features fv) as [|f fs IHfs]; intros df.
      - by exists df.
      - simpl. destruct (Hfv f) as [dt Hdt]; [left|].
        assert (∃ df2, probe_feature fv df f = Ok df2) as [df2 ->].
        { unfold probe_feature. rewrite Hdt. by eexists. }
        simpl. apply IHfs. intros g Hg. apply Hfv. by right. }
    simpl. apply IH. intros element Hel. apply Hknown.
    rewrite elements_cons. apply elem_of_app. by right.
Qed.
(** C7, as amended.  When the type map knows the declared type of every
    element of every upstream view, and elements that share a probe
    label declare the same type, the probe frame is built, every column
    of it has zero rows, and for every element it holds the two columns
    [{view name}__{feature name}] and [{feature name}], both empty and
    both of the native type of the element's declared type. *)
Theorem probe_frame_columns self :
  (∀ input_fv feature,
     input_fv ∈ (OnDemandFeatureView.inputs self).*2 →
     feature ∈ FeatureView.features input_fv →
     ∃ dt, feast_value_type_to_pandas_type (Feature.dtype feature) = Ok dt) →
  (∀ element element' c,
     element ∈ elements (OnDemandFeatureView.inputs self).*2 →
     element' ∈ elements (OnDemandFeatureView.inputs self).*2 →
     c ∈ probe_labels element → c ∈ probe_labels element' →
     Feature.dtype element.2 = Feature.dtype element'.2) →
  ∃ df,
    probe_frame (OnDemandFeatureView.inputs self).*2 = Ok df
    ∧ (∀ c s, (c, s) ∈ df → values s = [])
    ∧ (∀ input_fv feature,
         input_fv ∈ (OnDemandFeatureView.inputs self).*2 →
         feature ∈ FeatureView.features input_fv →
         ∃ dt,
           feast_value_type_to_pandas_type (Feature.dtype feature) = Ok dt
           ∧ getitem df (full_feature_ref input_fv feature)
             = Some (mkSeries dt [])
           ∧ getitem df (Feature.name feature) = Some (mkSeries dt [])).
Proof.
  intros Hknown Hagree.
  set (views := (OnDemandFeatureView.inputs self).*2) in *.
  destruct (probe_from_total views ([] : DataFrame Value)) as [df Hdf].
  { intros [fv f] [Hfv Hf]%elem_of_elements. by apply (Hknown fv f). }
  exists df. split; [done|].
  destruct (probe_from_probed views [] [] df) as [Hlabels Hcolumns]; [|done|].
  { split; [by intros ? ? ?%elem_of_nil | by intros ? ? ?%elem_of_nil]. }
  simpl in Hlabels, Hcolumns. split; [intros c s Hcs; by destruct (Hcolumns c s Hcs)|].
  intros fv f Hfv Hf. destruct (Hknown fv f Hfv Hf) as [dt Hdt].
  assert ((fv, f) ∈ elements views) as Hel by by apply elem_of_elements.
  assert (∀ c, c ∈ probe_labels (fv, f) →
            getitem df c = Some (mkSeries dt [])) as Hcol.
  { intros c Hc.
    destruct (proj2 (getitem_is_Some df c)) as [s Hs]; [by eapply Hlabels|].
    rewrite Hs. f_equal.
    destruct (Hcolumns c s (getitem_elem_of _ _ _ Hs))
      as [Hempty (element' & Hel' & Hc' & Hty)].
    rewrite <- (Hagree (fv, f) element' c Hel Hel' Hc Hc') in Hty.
    simpl in Hty. rewrite Hdt in Hty. destruct s as [dt' vs].
    simpl in *. by simplify_eq. }
  exists dt. split_and!; [done|apply Hcol..]; unfold probe_labels; simpl;
    set_solver.
Qed.
End InferenceFacts.

Section InferenceTheorems.
Context {Value ValueType : Type} `{EqDecision ValueType}.
Variable feast_value_type_to_pandas_type : ValueType → result string.
Variable python_type_to_feast_value_type : string → string → result ValueType.
Implicit Types (self : ODFV Value ValueType) (df : DataFrame Value).
Implicit Types (input_fv : FeatureView.t ValueType).
Implicit Types (feature : Feature.t ValueType).

Local Abbreviation probe_frame :=
  (probe_frame (Value:=Value) feast_value_type_to_pandas_type).
Local Abbreviation inferred_feature :=
  (inferred_feature (Value:=Value) python_type_to_feast_value_type).
Local Abbreviation infer_features_from_batch_source :=
  (infer_features_from_batch_source feast_value_type_to_pandas_type
                                    python_type_to_feast_value_type).

(** The loop of lines 153-158 over a frame every column of which the type
    map knows: one feature for each column, in the order of the columns,
    with the name of the column and the value type of its dtype. *)
Lemma inferred_features_total (out : DataFrame Value) :
  (∀ column, column ∈ out →
     ∃ t, python_type_to_feast_value_type column.1 (dtype column.2) = Ok t) →
  ∃ inferred_features,
    for_each inferred_feature out = Ok inferred_features
    ∧ Forall2 (λ column f,
                 Feature.name f = column.1
                 ∧ python_type_to_feast_value_type column.1 (dtype column.2)
                   = Ok (Feature.dtype f)
                 ∧ Feature.labels f = ∅)
              out inferred_features.
Proof.
  induction out as [|[c s] out IH]; intros Hknown.
  - exists []. split; [done | constructor].
  - destruct (Hknown (c, s)) as [t Ht]; [left|].
    destruct IH as (fs & Hfs & Hall).
    { intros column Hcolumn. apply Hknown. by right. }
    exists (Feature.mk c t ∅ :: fs). split.
    + assert (inferred_feature (c, s) = Ok (Feature.mk c t ∅)) as Hhead.
      { unfold inferred_feature. simpl in *. by rewrite Ht. }
      change (for_each inferred_feature ((c, s) :: out))
        with (b ← inferred_feature (c, s);
              bs ← for_each inferred_feature out; Ok (b :: bs)).
      rewrite Hhead. simpl. by rewrite Hfs.
    + by constructor.
Qed.

(** C4.  For a definition without declared features whose user function
    returns a frame on the probe, every column of which the type map
    knows, the call leaves in [features] one feature for each column of
    that frame and no other, in the order of the columns, each with the
    name of its column and the value type the type map gives for the
    dtype of its column. *)
Theorem inference_sets_features self df (out : DataFrame Value) :
  OnDemandFeatureView.features self = [] →
  probe_frame (OnDemandFeatureView.inputs self).*2 = Ok df →
  Udf.run (OnDemandFeatureView.udf self) df = Ok out →
  (∀ column, column ∈ out →
     ∃ t, python_type_to_feast_value_type column.1 (dtype column.2) = Ok t) →
  Forall2 (λ column f,
             Feature.name f = column.1
             ∧ python_type_to_feast_value_type column.1 (dtype column.2)
               = Ok (Feature.dtype f))
          out
          (OnDemandFeatureView.features
             (infer_features_from_batch_source self).1).
Proof.
  intros Hnone Hdf Hout Hknown.
  destruct (inferred_features_total out Hknown) as (fs & Hfs & Hall).
  unfold infer_features_from_batch_source. rewrite Hdf, Hout, Hfs.
  unfold reconcile. rewrite Hnone. unfold check_features. simpl.
  assert (OnDemandFeatureView.features
            (match fs with
             | [] => (with_features self fs,
                      Err (RegistryInferenceFailure
                             "OnDemandFeatureView"
                             ("Could not infer Features for the feature view '"
                                +:+ OnDemandFeatureView.name self +:+ "'.")))
             | _ :: _ => (with_features self fs, Ok ())
             end).1 = fs) as -> by by destruct fs.
  eapply Forall2_impl; [exact Hall|]. naive_solver.
Qed.

(** C6.  A definition without declared features whose user function
    returns a frame without columns on the probe makes the call raise
    [RegistryInferenceFailure] with the name of the definition in its
    message; and a call that returns leaves [features] non-empty. *)
Theorem empty_inference_fails self :
  (∀ df,
     OnDemandFeatureView.features self = [] →
     probe_frame (OnDemandFeatureView.inputs self).*2 = Ok df →
     Udf.run (OnDemandFeatureView.udf self) df = Ok [] →
     (infer_features_from_batch_source self).2
     = Err (RegistryInferenceFailure
              "OnDemandFeatureView"
              ("Could not infer Features for the feature view '"
                 +:+ OnDemandFeatureView.name self +:+ "'.")))
  ∧ ((infer_features_from_batch_source self).2 = Ok () →
     OnDemandFeatureView.features (infer_features_from_batch_source self).1
     ≠ []).
Proof.
  split.
  - intros df Hnone Hdf Hout. unfold infer_features_from_batch_source.
    rewrite Hdf, Hout. simpl. unfold reconcile. rewrite Hnone.
    unfold check_features. done.
  - unfold infer_features_from_batch_source, reconcile, check_features.
    repeat case_match; simpl in *; simplify_eq; try done;
      intros _; congruence.
Qed.

(** C9.  The call leaves [name], [inputs] and [udf] as they were, and
    leaves declared features as they were: [features] is assigned only
    where it was empty. *)
Theorem inference_frame self :
  OnDemandFeatureView.name (infer_features_from_batch_source self).1
    = OnDemandFeatureView.name self
  ∧ OnDemandFeatureView.inputs (infer_features_from_batch_source self).1
    = OnDemandFeatureView.inputs self
  ∧ OnDemandFeatureView.udf (infer_features_from_batch_source self).1
    = OnDemandFeatureView.udf self
  ∧ (OnDemandFeatureView.features self ≠ [] →
     OnDemandFeatureView.features (infer_features_from_batch_source self).1
     = OnDemandFeatureView.features self).
Proof.
  unfold infer_features_from_batch_source, reconcile, check_features.
  repeat case_match; simpl in *; simplify_eq; try done.
Qed.
End InferenceTheorems.

Section EqualityTheorems.
Context {Value ValueType : Type}.
Variable feast_value_type_to_pandas_type : ValueType → result string.
Variable python_type_to_feast_value_type : string → string → result ValueType.
Variable __eq__ : Feature.t ValueType → Feature.t ValueType → Prop.
Context `{∀ f g, Decision (__eq__ f g)}.
Implicit Types (self : ODFV Value ValueType) (df : DataFrame Value).

(** A list with one feature for each column, of the name of the column,
    of the value type of its dtype and without labels, is what the loop
    of lines 153-158 makes. *)
Lemma inferred_features_pinned (out : DataFrame Value)
  (inferred_features : list (Feature.t ValueType)) :
  Forall2 (λ column g,
             Feature.name g = column.1
             ∧ python_type_to_feast_value_type column.1 (dtype column.2)
               = Ok (Feature.dtype g)
             ∧ Feature.labels g = ∅)
          out inferred_features →
  for_each (inferred_feature python_type_to_feast_value_type) out
  = Ok inferred_features.
Proof.
  induction 1 as [|[c s] [n t l] out fs (Hn & Ht & Hl) _ IH]; [done|].
  simpl in *. subst n l.
  change (for_each (inferred_feature python_type_to_feast_value_type)
                   ((c, s) :: out))
    with (b ← inferred_feature python_type_to_feast_value_type (c, s);
          bs ← for_each (inferred_feature python_type_to_feast_value_type)
                        out;
          Ok (b :: bs)).
  assert (inferred_feature python_type_to_feast_value_type (c, s)
          = Ok (Feature.mk c t ∅)) as ->.
  { unfold inferred_feature. simpl. by rewrite Ht. }
  simpl. by rewrite IH.
Qed.

(** C5, as amended.  For a definition with declared features whose user
    function returns a frame on the probe, every column of which the type
    map knows, the call raises [SpecifiedFeaturesNotPresentError] exactly
    when some declared feature is equal, by the equality of features, to
    none of the inferred ones; the error carries the names of those
    declared features, in the order of declaration, and the name of the
    definition.  With an equality that holds only between features of the
    same name, a declared feature whose name is not a column of the frame
    is one of them. *)
Theorem specified_features_checked self df (out : DataFrame Value)
  (inferred_features : list (Feature.t ValueType)) :
  (∀ f g, __eq__ f g → Feature.name f = Feature.name g) →
  OnDemandFeatureView.features self ≠ [] →
  probe_frame feast_value_type_to_pandas_type
              (OnDemandFeatureView.inputs self).*2 = Ok df →
  Udf.run (OnDemandFeatureView.udf self) df = Ok out →
  Forall2 (λ column g,
             Feature.name g = column.1
             ∧ python_type_to_feast_value_type column.1 (dtype column.2)
               = Ok (Feature.dtype g)
             ∧ Feature.labels g = ∅)
          out inferred_features →
  let missing_features :=
    filter (λ f, ¬ Exists (__eq__ f) inferred_features)
           (OnDemandFeatureView.features self) in
  let outcome :=
    (WithEquality.infer_features_from_batch_source
       feast_value_type_to_pandas_type python_type_to_feast_value_type
       __eq__ self).2 in
  (∀ f, f ∈ OnDemandFeatureView.features self →
        Feature.name f ∉ keys out → f ∈ missing_features)
  ∧ (missing_features ≠ [] →
     outcome = Err (SpecifiedFeaturesNotPresentError
                      (Feature.name <$> missing_features)
                      (OnDemandFeatureView.name self)))
  ∧ (missing_features = [] →
     ∀ names name, outcome ≠ Err (SpecifiedFeaturesNotPresentError names name)).
Proof.
  intros Hnames Hsome Hdf Hout Hall missing outcome.
  assert (outcome
          = (WithEquality.reconcile __eq__ self inferred_features).2)
    as Houtcome.
  { unfold outcome, WithEquality.infer_features_from_batch_source.
    by rewrite Hdf, Hout, (inferred_features_pinned _ _ Hall). }
  rewrite Houtcome. unfold WithEquality.reconcile.
  destruct (OnDemandFeatureView.features self) as [|f0 declared] eqn:Hdeclared;
    [done|].
  cbv zeta. unfold WithEquality.not_in. fold missing. split_and!.
  - intros f Hf Habsent. unfold missing. apply list_elem_of_filter.
    split; [|done]. intros (g & Hg & Heq)%Exists_exists.
    apply Habsent. rewrite (Hnames f g Heq).
    apply list_elem_of_lookup in Hg as [i Hi].
    destruct (Forall2_lookup_r _ _ _ _ _ Hall Hi) as (column & Hcol & Hn & _).
    rewrite Hn. unfold keys. apply list_elem_of_fmap. exists column.
    split; [done|]. by eapply list_elem_of_lookup_2.
  - intros Hmissing. by destruct missing.
  - intros Hmissing names name. rewrite Hmissing.
    unfold check_features. by rewrite Hdeclared.
Qed.
End EqualityTheorems.

(** With the equality of section 3 of the specification the method over
    any equality is the method. *)
Lemma with_specified_equality {Value ValueType : Type}
  `{EqDecision ValueType}
  (feast_value_type_to_pandas_type : ValueType → result string)
  (python_type_to_feast_value_type : string → string → result ValueType)
  (self : ODFV Value ValueType) :
  WithEquality.infer_features_from_batch_source
    feast_value_type_to_pandas_type python_type_to_feast_value_type
    Feature.eq self
  = infer_features_from_batch_source
      feast_value_type_to_pandas_type python_type_to_feast_value_type self.
Proof. reflexivity. Qed.

(** *** The scenario, inferred *)

Lemma scenario_probe :
  probe_frame (Value:=Z) Scenario.feast_value_type_to_pandas_type
              [Scenario.driver_stats]
  = Ok [("driver_stats__x", mkSeries "float64" []);
        ("x", mkSeries "float64" [])].
Proof. vm_compute. reflexivity. Qed.

Lemma scenario_probe_run :
  Udf.run Scenario.double
          [("driver_stats__x", mkSeries "float64" []);
           ("x", mkSeries "float64" [])]
  = Ok [("y", mkSeries "float64" [])].
Proof. vm_compute. reflexivity. Qed.

Lemma probe_frame_columns_witness :
  ∃ df : DataFrame Z,
    probe_frame Scenario.feast_value_type_to_pandas_type
                [Scenario.driver_stats] = Ok df
    ∧ (∀ c s, (c, s) ∈ df → values s = [])
    ∧ (∀ input_fv feature,
         input_fv ∈ [Scenario.driver_stats] →
         feature ∈ FeatureView.features input_fv →
         ∃ dt,
           Scenario.feast_value_type_to_pandas_type (Feature.dtype feature)
           = Ok dt
           ∧ getitem df (full_feature_ref input_fv feature)
             = Some (mkSeries dt [])
           ∧ getitem df (Feature.name feature) = Some (mkSeries dt [])).
Proof.
  apply (probe_frame_columns Scenario.feast_value_type_to_pandas_type
                             (Scenario.by_name Scenario.double [])).
  - intros input_fv feature _ _. eexists. reflexivity.
  - intros element element' c Hel Hel' _ _.
    apply list_elem_of_singleton in Hel, Hel'. subst. reflexivity.
Defined.

(** C7, as stated, fails twice.  A view bound under an alias that is not
    its name gets its probe column under its name, not under the alias;
    and of two elements with the same bare name and different types, the
    bare column has the type of the one the loop visits last. *)
Lemma probe_frame_not_by_alias :
  (∃ df : DataFrame Z,
     probe_frame Scenario.feast_value_type_to_pandas_type
       (OnDemandFeatureView.inputs (Scenario.by_alias Scenario.double [])).*2
     = Ok df
     ∧ "driver" +:+ "__" +:+ "x" ∉ keys df)
  ∧ (∃ df : DataFrame Z,
       probe_frame Scenario.feast_value_type_to_pandas_type
                   [Scenario.driver_stats; Scenario.trips] = Ok df
       ∧ Scenario.feast_value_type_to_pandas_type
           (Feature.dtype Scenario.x) = Ok "float64"
       ∧ getitem df (Feature.name Scenario.x)
         = Some (mkSeries "int64" [])).
Proof.
  split.
  - eexists. split; [vm_compute; reflexivity|].
    vm_compute. intros H. repeat (apply elem_of_cons in H as [H|H]; [done|]).
    by apply elem_of_nil in H.
  - eexists. split; [vm_compute; reflexivity|]. vm_compute. done.
Qed.

Lemma inference_sets_features_witness :
  Forall2 (λ (column : string * Series Z) f,
             Feature.name f = column.1
             ∧ Scenario.python_type_to_feast_value_type
                 column.1 (dtype column.2)
               = Ok (Feature.dtype f))
          [("a", mkSeries "int64" []); ("b", mkSeries "object" [])]
          (OnDemandFeatureView.features
             (infer_features_from_batch_source
                Scenario.feast_value_type_to_pandas_type
                Scenario.python_type_to_feast_value_type
                (Scenario.by_name Scenario.two_columns [])).1).
Proof.
  apply (inference_sets_features
           Scenario.feast_value_type_to_pandas_type
           Scenario.python_type_to_feast_value_type
           (Scenario.by_name Scenario.two_columns [])
           [("driver_stats__x", mkSeries "float64" []);
            ("x", mkSeries "float64" [])]
           [("a", mkSeries "int64" []); ("b", mkSeries "object" [])]).
  - reflexivity.
  - vm_compute. reflexivity.
  - vm_compute. reflexivity.
  - intros column [-> | ->%list_elem_of_singleton]%elem_of_cons;
      eexists; vm_compute; reflexivity.
Defined.

(** The inference example of section 8 of the specification: columns
    [a] of integers and [b] of strings give the features [a] of [INT64]
    and [b] of [STRING], these two and in this order. *)
Example scenario_two_columns :
  OnDemandFeatureView.features
    (infer_features_from_batch_source
       Scenario.feast_value_type_to_pandas_type
       Scenario.python_type_to_feast_value_type
       (Scenario.by_name Scenario.two_columns [])).1
  = [Feature.mk "a" Scenario.INT64 ∅; Feature.mk "b" Scenario.STRING ∅].
Proof. vm_compute. reflexivity. Qed.

Lemma specified_features_checked_witness :
  (WithEquality.infer_features_from_batch_source
     Scenario.feast_value_type_to_pandas_type
     Scenario.python_type_to_feast_value_type Scenario.__eq__
     (Scenario.by_name Scenario.double
        [Feature.mk "y" Scenario.FLOAT ∅; Feature.mk "z" Scenario.FLOAT ∅])).2
  = Err (SpecifiedFeaturesNotPresentError ["z"] "double").
Proof.
  refine (proj1 (proj2 (specified_features_checked
           Scenario.feast_value_type_to_pandas_type
           Scenario.python_type_to_feast_value_type Scenario.__eq__
           (Scenario.by_name Scenario.double
              [Feature.mk "y" Scenario.FLOAT ∅;
               Feature.mk "z" Scenario.FLOAT ∅])
           [("driver_stats__x", mkSeries "float64" []);
            ("x", mkSeries "float64" [])]
           [("y", mkSeries "float64" [])]
           [Feature.mk "y" Scenario.FLOAT ∅] _ _ _ _ _)) _).
  - intros f g [Hname _]. exact Hname.
  - discriminate.
  - vm_compute. reflexivity.
  - vm_compute. reflexivity.
  - repeat constructor.
  - vm_compute. discriminate.
Defined.

(** Under an equality that looks at the labels, a declared feature with
    labels is not found among the inferred ones, which have none. *)
Example labelled_feature_not_found :
  (WithEquality.infer_features_from_batch_source
     Scenario.feast_value_type_to_pandas_type
     Scenario.python_type_to_feast_value_type Scenario.__eq__
     (Scenario.by_name Scenario.double
        [Feature.mk "y" Scenario.FLOAT {["team" := "drivers"]}])).2
  = Err (SpecifiedFeaturesNotPresentError ["y"] "double").
Proof. vm_compute. reflexivity. Qed.

(** C5, as stated, fails where a declared feature is produced under its
    name with another type: the name [y] is among the columns of the probe
    run, and the call raises all the same. *)
Lemma present_name_other_type_raises :
  let self := Scenario.by_name Scenario.double
                [Feature.mk "y" Scenario.INT64 ∅] in
  ∃ df out : DataFrame Z,
    probe_frame Scenario.feast_value_type_to_pandas_type
                (OnDemandFeatureView.inputs self).*2 = Ok df
    ∧ Udf.run (OnDemandFeatureView.udf self) df = Ok out
    ∧ (∀ f, f ∈ OnDemandFeatureView.features self →
            Feature.name f ∈ keys out)
    ∧ (infer_features_from_batch_source
         Scenario.feast_value_type_to_pandas_type
         Scenario.python_type_to_feast_value_type self).2
      = Err (SpecifiedFeaturesNotPresentError ["y"] "double").
Proof.
  eexists _, _. split_and!; [vm_compute; reflexivity..| |vm_compute; reflexivity].
  intros f ->%list_elem_of_singleton. vm_compute. left.
Qed.

Lemma empty_inference_fails_witness :
  (infer_features_from_batch_source
     Scenario.feast_value_type_to_pandas_type
     Scenario.python_type_to_feast_value_type
     (Scenario.by_name Scenario.nothing [])).2
  = Err (RegistryInferenceFailure
           "OnDemandFeatureView"
           "Could not infer Features for the feature view 'nothing'.").
Proof.
  apply (proj1 (empty_inference_fails
                  Scenario.feast_value_type_to_pandas_type
                  Scenario.python_type_to_feast_value_type
                  (Scenario.by_name Scenario.nothing []))
               [("driver_stats__x", mkSeries "float64" []);
                ("x", mkSeries "float64" [])]).
  - reflexivity.
  - vm_compute. reflexivity.
  - vm_compute. reflexivity.
Defined.

Lemma inference_frame_witness :
  OnDemandFeatureView.features
    (infer_features_from_batch_source
       Scenario.feast_value_type_to_pandas_type
       Scenario.python_type_to_feast_value_type
       (Scenario.by_name Scenario.double [Feature.mk "y" Scenario.FLOAT ∅])).1
  = [Feature.mk "y" Scenario.FLOAT ∅].
Proof.
  apply (inference_frame
           Scenario.feast_value_type_to_pandas_type
           Scenario.python_type_to_feast_value_type
           (Scenario.by_name Scenario.double
              [Feature.mk "y" Scenario.FLOAT ∅])).
  discriminate.
Defined.

(** ** [to_proto] and [from_proto] *)

Section ResultFacts.
Context {A B : Type}.
Implicit Types (f : A → result B).

(** A comprehension over the images of a list, with a body that undoes
    the image of each member, gives the list back. *)
Lemma for_each_fmap_inverse (g : B → A) f (l : list B) :
  (∀ b, b ∈ l → f (g b) = Ok b) → for_each f (g <$> l) = Ok l.
Proof.
  induction l as [|b l IH]; intros Hinv; [done|].
  rewrite fmap_cons.
  change (for_each f (g b :: (g <$> l)))
    with (x ← f (g b); bs ← for_each f (g <$> l); Ok (x :: bs)).
  rewrite Hinv by left. rewrite IH; [done|].
  intros b' Hb'. apply Hinv. by right.
Qed.

(** A comprehension that succeeds on a list succeeds on every
    rearrangement of it, with the rearranged answers. *)
Lemma for_each_Permutation f (l l' : list A) (r : list B) :
  l ≡ₚ l' → for_each f l = Ok r →
  ∃ r', for_each f l' = Ok r' ∧ r ≡ₚ r'.
Proof.
  intros Hperm. revert r.
  induction Hperm as [|a l l' _ IH|a a' l|l l' l'' _ IH1 _ IH2]; intros r; simpl.
  - intros [= <-]. by exists [].
  - destruct (f a) as [b|e]; simpl; [|done].
    destruct (for_each f l) as [bs|e]; simpl; [|done].
    intros [= <-]. destruct (IH bs eq_refl) as (bs' & -> & Hbs). simpl.
    eexists. split; [done|]. by constructor.
  - destruct (f a') as [b'|e]; simpl; [|done].
    destruct (f a) as [b|e]; simpl; [|done].
    destruct (for_each f l) as [bs|e]; simpl; [|done].
    intros [= <-]. eexists. split; [done|]. by constructor.
  - intros Hr. destruct (IH1 r Hr) as (r' & Hr' & Hperm').
    destruct (IH2 r' Hr') as (r'' & Hr'' & Hperm'').
    exists r''. split; [done|]. by etrans.
Qed.
End ResultFacts.

Section DecodeTheorems.
Context {Value ValueType FeatureViewProto : Type}.
Variable ValueType_of : Z → result ValueType.
Variable FeatureView_from_proto :
  FeatureViewProto → result (FeatureView.t ValueType).
Variable dill_loads : list Byte.byte → result (Udf.t Value).

Local Abbreviation from_proto :=
  (from_proto ValueType_of FeatureView_from_proto dill_loads).

(** C8, as amended.  A wire form whose body dill cannot load is not
    decoded: [from_proto] raises, and where the features and the inputs
    of the wire form decode, what it raises is the exception of dill, as
    dill raised it. *)
Theorem undecodable_body_propagates
  (proto : OnDemandFeatureViewProto.t FeatureViewProto) (e : exn) :
  dill_loads (UserDefinedFunctionProto.body
                (OnDemandFeatureViewSpec.user_defined_function
                   (OnDemandFeatureViewProto.spec proto))) = Err e →
  (∃ e', from_proto proto = Err e')
  ∧ (∀ features inputs,
       for_each (Feature_of_proto ValueType_of)
                (OnDemandFeatureViewSpec.features
                   (OnDemandFeatureViewProto.spec proto)) = Ok features →
       for_each (input_of_proto FeatureView_from_proto)
                (map_to_list (OnDemandFeatureViewSpec.inputs
                                (OnDemandFeatureViewProto.spec proto)))
       = Ok inputs →
       from_proto proto = Err e).
Proof.
  intros Hbody. unfold from_proto. split.
  - destruct (for_each (Feature_of_proto _) _) as [features|e1]; simpl;
      [|by eexists].
    destruct (for_each (input_of_proto _) _) as [inputs|e2]; simpl;
      [|by eexists].
    rewrite Hbody. by eexists.
  - intros features inputs -> ->. simpl. by rewrite Hbody.
Qed.
End DecodeTheorems.

Section CodecTheorems.
Context {Value ValueType FeatureViewProto : Type}.
Variable value : ValueType → Z.
Variable ValueType_of : Z → result ValueType.
Variable FeatureView_to_proto : FeatureView.t ValueType → FeatureViewProto.
Variable FeatureView_from_proto :
  FeatureViewProto → result (FeatureView.t ValueType).
Variable dill_dumps : Udf.t Value → result (list Byte.byte).
Variable dill_loads : list Byte.byte → result (Udf.t Value).

Local Abbreviation to_proto :=
  (to_proto value FeatureView_to_proto dill_dumps).
Local Abbreviation from_proto :=
  (from_proto ValueType_of FeatureView_from_proto dill_loads).

(** C2.  For a definition that is valid for the codec (the enumeration
    gives back each declared value type from its number, the aliases are
    distinct, the codec of views gives back each upstream view, and dill
    gives back a function that behaves as the one it was given),
    [to_proto] succeeds and [from_proto] decodes its result into a
    definition with the same name, the same sequence of features (name,
    value type, labels), the same bindings of aliases to views, and a
    function with the same behaviour on every frame. *)
Theorem round_trip (self : ODFV Value ValueType) (body : list Byte.byte)
  (udf' : Udf.t Value) :
  (∀ feature, feature ∈ OnDemandFeatureView.features self →
     ValueType_of (value (Feature.dtype feature)) = Ok (Feature.dtype feature)) →
  NoDup (OnDemandFeatureView.inputs self).*1 →
  (∀ binding, binding ∈ OnDemandFeatureView.inputs self →
     FeatureView_from_proto (FeatureView_to_proto binding.2) = Ok binding.2) →
  dill_dumps (OnDemandFeatureView.udf self) = Ok body →
  dill_loads body = Ok udf' →
  (∀ df, Udf.__call__ udf' df
         = Udf.__call__ (OnDemandFeatureView.udf self) df) →
  ∃ proto decoded,
    to_proto self = Ok proto
    ∧ from_proto proto = Ok decoded
    ∧ OnDemandFeatureView.name decoded = OnDemandFeatureView.name self
    ∧ OnDemandFeatureView.features decoded = OnDemandFeatureView.features self
    ∧ OnDemandFeatureView.inputs decoded ≡ₚ OnDemandFeatureView.inputs self
    ∧ (∀ df, Udf.__call__ (OnDemandFeatureView.udf decoded) df
             = Udf.__call__ (OnDemandFeatureView.udf self) df).
Proof.
  intros Henum Haliases Hviews Hdumps Hloads Hsame.
  pose (encoded := prod_map id FeatureView_to_proto
                     <$> OnDemandFeatureView.inputs self).
  assert (for_each (input_of_proto FeatureView_from_proto) encoded
          = Ok (OnDemandFeatureView.inputs self)) as Hdecoded.
  { apply for_each_fmap_inverse. intros [alias fv] Hin.
    unfold input_of_proto. pose proof (Hviews _ Hin) as Hfv.
    simpl in *. by rewrite Hfv. }
  assert (map_to_list (list_to_map encoded : gmap string FeatureViewProto)
          ≡ₚ encoded) as Hperm.
  { apply map_to_list_to_map. unfold encoded.
    rewrite <- list_fmap_compose.
    assert ((fst ∘ prod_map id FeatureView_to_proto)
              <$> OnDemandFeatureView.inputs self
            = (OnDemandFeatureView.inputs self).*1) as ->; [|done].
    apply list_fmap_ext. by intros i [alias fv] _. }
  destruct (for_each_Permutation _ _ _ _ (symmetry Hperm) Hdecoded)
    as (inputs & Hinputs_eq & Hinputs).
  assert (for_each (Feature_of_proto ValueType_of)
                   (Feature_to_proto value <$> OnDemandFeatureView.features self)
          = Ok (OnDemandFeatureView.features self)) as Hfeatures.
  { apply for_each_fmap_inverse. intros [n t l] Hf.
    unfold Feature_of_proto, Feature_to_proto.
    pose proof (Henum _ Hf) as Ht. simpl in *. by rewrite Ht. }
  eexists _, (OnDemandFeatureView.mk (OnDemandFeatureView.name self)
                (OnDemandFeatureView.features self) inputs udf').
  split; [unfold to_proto; rewrite Hdumps; reflexivity|].
  split; [|by split_and!].
  unfold from_proto.
  cbv beta iota zeta delta
    [OnDemandFeatureViewProto.spec OnDemandFeatureViewSpec.name
     OnDemandFeatureViewSpec.features OnDemandFeatureViewSpec.inputs
     OnDemandFeatureViewSpec.user_defined_function
     UserDefinedFunctionProto.body].
  fold encoded. by rewrite Hfeatures, Hinputs_eq, Hloads.
Qed.
End CodecTheorems.

Lemma round_trip_witness :
  ∃ proto decoded,
    to_proto Scenario.value Scenario.FeatureView_to_proto Scenario.dill_dumps
             (Scenario.by_name Scenario.double
                               [Feature.mk "y" Scenario.FLOAT ∅])
    = Ok proto
    ∧ from_proto Scenario.ValueType_of Scenario.FeatureView_from_proto
                 Scenario.dill_loads proto = Ok decoded
    ∧ OnDemandFeatureView.name decoded = "double"
    ∧ OnDemandFeatureView.features decoded = [Feature.mk "y" Scenario.FLOAT ∅]
    ∧ OnDemandFeatureView.inputs decoded
      ≡ₚ [("driver_stats", Scenario.driver_stats)]
    ∧ (∀ df, Udf.__call__ (OnDemandFeatureView.udf decoded) df
             = Udf.__call__ Scenario.double df).
Proof.
  apply (round_trip Scenario.value Scenario.ValueType_of
                    Scenario.FeatureView_to_proto
                    Scenario.FeatureView_from_proto
                    Scenario.dill_dumps Scenario.dill_loads
                    (Scenario.by_name Scenario.double
                                      [Feature.mk "y" Scenario.FLOAT ∅])
                    (String.list_byte_of_string "double") Scenario.double).
  - intros feature Hf. apply list_elem_of_singleton in Hf. subst feature.
    reflexivity.
  - apply NoDup_singleton.
  - intros binding _. reflexivity.
  - reflexivity.
  - vm_compute. reflexivity.
  - intros df. reflexivity.
Defined.

Lemma undecodable_body_propagates_witness :
  from_proto (Value:=Z) Scenario.ValueType_of Scenario.FeatureView_from_proto
             Scenario.dill_loads Scenario.undecodable
  = Err (Raised "UnpicklingError").
Proof.
  refine (proj2 (undecodable_body_propagates
                   Scenario.ValueType_of Scenario.FeatureView_from_proto
                   Scenario.dill_loads Scenario.undecodable
                   (Raised "UnpicklingError") _)
                [Feature.mk "y" Scenario.FLOAT ∅]
                [("driver_stats", Scenario.driver_stats)] _ _).
  - vm_compute. reflexivity.
  - vm_compute. reflexivity.
  - vm_compute. reflexivity.
Defined.

(** C8, as stated, fails on every wire form with a body dill cannot load:
    what [from_proto] raises is dill's own exception, not
    [MalformedDefinition]. *)
Lemma undecodable_body_not_malformed :
  Scenario.dill_loads
    (UserDefinedFunctionProto.body
       (OnDemandFeatureViewSpec.user_defined_function
          (OnDemandFeatureViewProto.spec Scenario.undecodable)))
  = Err (Raised "UnpicklingError")
  ∧ from_proto (Value:=Z) Scenario.ValueType_of
               Scenario.FeatureView_from_proto
               Scenario.dill_loads Scenario.undecodable
    ≠ Err MalformedDefinition.
Proof. split; [vm_compute; reflexivity | vm_compute; discriminate]. Qed.

(** * Further properties of the methods *)

(** ** [get_transformed_features_df]: what is left of the caller's frame *)

Section CleanupFacts.
Context {Value ValueType : Type}.
Implicit Types (self : ODFV Value ValueType) (df : DataFrame Value).
Implicit Types (st : DataFrame Value * list string).
Implicit Types (views : list (FeatureView.t ValueType)).
Implicit Types (input_fv : FeatureView.t ValueType).
Implicit Types (feature : Feature.t ValueType).

(** A column assigned under a name that is dropped afterwards might as
    well not have been assigned. *)
Lemma filter_setitem_dropped df k (s : Series Value) (cols : list string) :
  k ∈ cols →
  filter (λ cs : string * Series Value, cs.1 ∉ cols) (setitem df k s)
  = filter (λ cs : string * Series Value, cs.1 ∉ cols) df.
Proof.
  intros Hk. unfold setitem. case_decide as Hin.
  - clear Hin. induction df as [|[c x] df IH]; [done|].
    rewrite fmap_cons. simpl. case_decide as Hc; simpl in *.
    + subst c. rewrite !filter_cons_False by (simpl; tauto). done.
    + destruct (decide (c ∈ cols)).
      * rewrite !filter_cons_False by (simpl; tauto). done.
      * rewrite !filter_cons_True by done. by f_equal.
  - rewrite filter_app.
    rewrite (filter_cons_False _ (k, s)) by (simpl; tauto).
    by rewrite filter_nil, (right_id_L [] (++)).
Qed.

Lemma filter_not_elem_of_app {A : Type} (label : A → string)
  (cols : list string) (k : string) (l : list A) :
  filter (λ a, label a ∉ cols ++ [k]) l
  = filter (λ a, label a ≠ k) (filter (λ a, label a ∉ cols) l).
Proof.
  rewrite list_filter_filter. apply list_filter_iff. intros a.
  rewrite elem_of_app, list_elem_of_singleton. tauto.
Qed.

(** The copy step changes nothing but columns it puts on
    [columns_to_cleanup]. *)
Lemma copy_features_outside views df :
  filter (λ cs : string * Series Value,
            cs.1 ∉ (copy_features views (df, [])).2)
         (copy_features views (df, [])).1
  = filter (λ cs : string * Series Value,
              cs.1 ∉ (copy_features views (df, [])).2) df.
Proof.
  pose (P := λ st : DataFrame Value * list string,
          filter (λ cs : string * Series Value, cs.1 ∉ st.2) st.1
          = filter (λ cs : string * Series Value, cs.1 ∉ st.2) df).
  apply (copy_features_ind P); unfold P.
  - done.
  - intros fv f st _ _ IH. unfold copy_feature.
    destruct (getitem st.1 (full_feature_ref fv f)) as [s|]; [|done]. simpl.
    rewrite filter_setitem_dropped
      by (rewrite elem_of_app, list_elem_of_singleton; by right).
    rewrite !(filter_not_elem_of_app fst). by rewrite IH.
Qed.

(** The frame and the cleanup list only grow along the features of a
    view, and a feature whose prefixed column is there is put on the
    list. *)
Lemma copy_view_ind (P : DataFrame Value * list string → Prop) input_fv
  (features : list (Feature.t ValueType)) st :
  P st →
  (∀ feature st', P st' → P (copy_feature input_fv st' feature)) →
  P (foldl (copy_feature input_fv) st features).
Proof.
  revert st. induction features as [|f fs IH]; intros st Hst Hstep; [done|].
  simpl. apply IH; [by apply Hstep | done].
Qed.

Lemma copy_feature_grows input_fv feature st :
  (∀ c, c ∈ keys st.1 → c ∈ keys (copy_feature input_fv st feature).1)
  ∧ (∀ c, c ∈ st.2 → c ∈ (copy_feature input_fv st feature).2).
Proof.
  unfold copy_feature.
  destruct (getitem st.1 (full_feature_ref input_fv feature)); [|done].
  simpl. split; intros c Hc.
  - apply elem_of_keys_setitem. by right.
  - apply elem_of_app. by left.
Qed.

Lemma copy_view_lists input_fv (features : list (Feature.t ValueType))
  feature st :
  feature ∈ features →
  full_feature_ref input_fv feature ∈ keys st.1 →
  Feature.name feature ∈ (foldl (copy_feature input_fv) st features).2.
Proof.
  revert st. induction features as [|f fs IH]; intros st Hf Href.
  - by apply elem_of_nil in Hf.
  - simpl. apply elem_of_cons in Hf as [<- | Hf].
    + apply (copy_view_ind (λ st', Feature.name feature ∈ st'.2)).
      * unfold copy_feature.
        destruct (proj2 (getitem_is_Some _ _) Href) as [s ->]. simpl.
        apply elem_of_app. right. by apply list_elem_of_singleton.
      * intros g st' Hst'. by apply copy_feature_grows.
    + apply IH; [done|]. by apply copy_feature_grows.
Qed.

Lemma copy_features_lists views input_fv feature st :
  input_fv ∈ views →
  feature ∈ FeatureView.features input_fv →
  full_feature_ref input_fv feature ∈ keys st.1 →
  Feature.name feature ∈ (copy_features views st).2.
Proof.
  unfold copy_features. revert st.
  induction views as [|fv views IH]; intros st Hfv Hf Href.
  - by apply elem_of_nil in Hfv.
  - simpl. apply elem_of_cons in Hfv as [<- | Hfv].
    + apply (copy_features_ind (λ st', Feature.name feature ∈ st'.2)).
      * by apply copy_view_lists.
      * intros fv' g st' _ _ Hst'. by apply copy_feature_grows.
    + apply IH; [done..|].
      apply (copy_view_ind (λ st', full_feature_ref input_fv feature
                                     ∈ keys st'.1)); [done|].
      intros g st' Hst'. by apply copy_feature_grows.
Qed.

(** Where no prefixed column is in the frame the copy step does
    nothing. *)
Lemma copy_features_nothing views df :
  (∀ input_fv feature,
     input_fv ∈ views → feature ∈ FeatureView.features input_fv →
     full_feature_ref input_fv feature ∉ keys df) →
  copy_features views (df, []) = (df, []).
Proof.
  intros Habsent.
  apply (copy_features_ind (λ st, st = (df, []))); [done|].
  intros fv f st Hfv Hf ->. unfold copy_feature. simpl.
  by rewrite (proj2 (getitem_None df _)) by by apply Habsent.
Qed.

(** The cleanup of the frame the copy step made gives the caller's
    columns whose label is not on the list. *)
Lemma drop_copied views df :
  drop (copy_features views (df, [])).1 (copy_features views (df, [])).2
  = Ok (filter (λ cs : string * Series Value,
                  cs.1 ∉ (copy_features views (df, [])).2) df).
Proof.
  rewrite drop_present by apply copy_features_cleanup_present.
  by rewrite copy_features_outside.
Qed.

(** X1.  On a frame with distinct labels, after a normal return of a user
    function that leaves its argument as it received it, the caller's
    frame holds the columns it held before whose label is not on
    [columns_to_cleanup], as they were and in their order, and nothing
    else; a user function that answers with its argument gets that frame
    for its answer. *)
Theorem frame_after_normal_return self df ret :
  NoDup (keys df) →
  (∀ x, (Udf.__call__ (OnDemandFeatureView.udf self) x).1 = x) →
  (Udf.__call__ (OnDemandFeatureView.udf self) (handed self true df)).2
  = Ok ret →
  let kept := filter (λ cs : string * Series Value,
                        cs.1 ∉ columns_to_cleanup self df) df in
  get_transformed_features_df self true df = (kept, Ok (Udf.content kept ret)).
Proof.
  intros _ Hleaves Hret kept. unfold get_transformed_features_df.
  unfold handed in Hret. unfold kept, columns_to_cleanup.
  pose proof (drop_copied (OnDemandFeatureView.inputs self).*2 df) as Hdrop.
  destruct (copy_features _ _) as [df1 cleanup]. cbn in *.
  pose proof (Hleaves df1) as Hsame.
  destruct (Udf.__call__ _ _) as [df2 r]. cbn in *. subst df2 r.
  by rewrite Hdrop.
Qed.

(** X2.  On a frame with distinct labels, after such a return the bare
    column of every element whose prefixed column was in the caller's
    frame is not in that frame, whether the copy step made it or the
    caller supplied it. *)
Theorem bare_column_gone self df ret input_fv feature :
  NoDup (keys df) →
  (∀ x, (Udf.__call__ (OnDemandFeatureView.udf self) x).1 = x) →
  (Udf.__call__ (OnDemandFeatureView.udf self) (handed self true df)).2
  = Ok ret →
  input_fv ∈ (OnDemandFeatureView.inputs self).*2 →
  feature ∈ FeatureView.features input_fv →
  full_feature_ref input_fv feature ∈ keys df →
  Feature.name feature ∉ keys (get_transformed_features_df self true df).1.
Proof.
  intros _ Hleaves Hret Hfv Hf Href. unfold get_transformed_features_df.
  unfold handed in Hret.
  pose proof (drop_copied (OnDemandFeatureView.inputs self).*2 df) as Hdrop.
  pose proof (copy_features_lists (OnDemandFeatureView.inputs self).*2
                input_fv feature (df, []) Hfv Hf Href) as Hlisted.
  destruct (copy_features _ _) as [df1 cleanup]. cbn in *.
  pose proof (Hleaves df1) as Hsame.
  destruct (Udf.__call__ _ _) as [df2 r]. cbn in *. subst df2 r.
  rewrite Hdrop. cbn. unfold keys.
  intros ([c s] & Hc & [Hout _]%list_elem_of_filter)%list_elem_of_fmap.
  simpl in *. by subst c.
Qed.
(** X3.  On a frame with distinct labels, when the user function raises
    (and has left its argument alone), the method raises the same
    exception and nothing is cleaned up: where the bare names are
    distinct, none of them is a label of the caller's frame and none of
    them is a prefixed name, the caller's frame is then its columns
    followed by one bare column for every element whose prefixed column
    it holds. *)
Theorem columns_left_on_raise self df e :
  NoDup (keys df) →
  (∀ x, (Udf.__call__ (OnDemandFeatureView.udf self) x).1 = x) →
  NoDup ((λ element, Feature.name element.2)
           <$> bound_elements (OnDemandFeatureView.inputs self)) →
  (∀ element, element ∈ bound_elements (OnDemandFeatureView.inputs self) →
     Feature.name element.2 ∉ keys df) →
  (∀ element element',
     element ∈ bound_elements (OnDemandFeatureView.inputs self) →
     element' ∈ bound_elements (OnDemandFeatureView.inputs self) →
     Feature.name element.2
     ≠ view_prefix element'.1 +:+ "__" +:+ Feature.name element'.2) →
  (Udf.__call__ (OnDemandFeatureView.udf self) (handed self true df)).2
  = Err e →
  get_transformed_features_df self true df
  = (df ++ bare_columns view_prefix (OnDemandFeatureView.inputs self) df,
     Err e).
Proof.
  intros _ Hleaves Hdistinct Hfresh Hprefixed Hraise.
  unfold get_transformed_features_df. unfold handed in Hraise.
  pose proof (copy_features_populate (OnDemandFeatureView.inputs self)
                                     (df, [])) as Hpopulate.
  cbn [fst] in Hpopulate.
  rewrite (populate_bare_appended _ _ _ Hdistinct Hfresh Hprefixed)
    in Hpopulate.
  destruct (copy_features _ _) as [df1 cleanup]. cbn in *. subst df1.
  pose proof (Hleaves (df ++ bare_columns view_prefix
                               (OnDemandFeatureView.inputs self) df))
    as Hsame.
  destruct (Udf.__call__ _ _) as [df2 r]. cbn in *. by subst df2 r.
Qed.

(** X4.  On a frame that holds none of the prefixed columns the flag
    makes no difference: nothing is copied, nothing is cleaned up. *)
Theorem no_prefixed_column_no_copy self df :
  (∀ input_fv feature,
     input_fv ∈ (OnDemandFeatureView.inputs self).*2 →
     feature ∈ FeatureView.features input_fv →
     full_feature_ref input_fv feature ∉ keys df) →
  get_transformed_features_df self true df
  = get_transformed_features_df self false df.
Proof.
  intros Habsent. unfold get_transformed_features_df.
  by rewrite (copy_features_nothing _ _ Habsent).
Qed.

(** X5.  On a frame with distinct labels and with a user function that
    leaves its argument alone, the method raises only what the user
    function raises on the frame handed to it: the cleanup never
    fails. *)
Theorem only_the_udf_raises self (full_feature_names : bool) df e :
  NoDup (keys df) →
  (∀ x, (Udf.__call__ (OnDemandFeatureView.udf self) x).1 = x) →
  (get_transformed_features_df self full_feature_names df).2 = Err e
  ↔ (Udf.__call__ (OnDemandFeatureView.udf self)
                  (handed self full_feature_names df)).2 = Err e.
Proof.
  intros _ Hleaves. unfold get_transformed_features_df, handed.
  destruct full_feature_names.
  - pose proof (drop_copied (OnDemandFeatureView.inputs self).*2 df)
      as Hdrop.
    destruct (copy_features _ _) as [df1 cleanup]. cbn in *.
    pose proof (Hleaves df1) as Hsame.
    destruct (Udf.__call__ _ _) as [df2 [ret|e']]; cbn in *;
      [|by split; intros [= ->]].
    subst df2. rewrite Hdrop. cbn. by split.
  - cbn. destruct (Udf.__call__ _ _) as [df2 [ret|e']]; cbn;
      [|by split; intros [= ->]].
    rewrite drop_nil. cbn. by split.
Qed.

(** X6.  On a frame with distinct labels, when the user function returns
    normally but has taken a copied column out of the frame, the cleanup
    raises [KeyError] for it: the answer of the user function is lost and
    the frame stays as the user function left it. *)
Theorem removed_copy_raises self df df2 ret c :
  NoDup (keys df) →
  Udf.__call__ (OnDemandFeatureView.udf self) (handed self true df)
  = (df2, Ok ret) →
  c ∈ columns_to_cleanup self df →
  c ∉ keys df2 →
  ∃ missing,
    c ∈ missing
    ∧ get_transformed_features_df self true df = (df2, Err (KeyError missing)).
Proof.
  unfold handed, columns_to_cleanup, get_transformed_features_df.
  destruct (copy_features _ _) as [df1 cleanup]. cbn.
  intros _ -> Hc Hgone. unfold drop.
  assert (c ∈ filter (λ c, c ∉ keys df2) cleanup) as Hmissing
    by by apply list_elem_of_filter.
  destruct (filter (λ c, c ∉ keys df2) cleanup) as [|c' missing] eqn:Hfilter.
  - by apply elem_of_nil in Hmissing.
  - by exists (c' :: missing).
Qed.
End CleanupFacts.

Lemma scenario_supplied_NoDup :
  NoDup (keys (Scenario.batch_by_name
                 ++ [("x", mkSeries "float64" [7; 8]%Z)])).
Proof.
  apply NoDup_cons. split; [|apply NoDup_singleton].
  by intros [=]%list_elem_of_singleton.
Qed.

Lemma frame_after_normal_return_witness :
  get_transformed_features_df
    (Scenario.by_name Scenario.identity []) true
    (Scenario.batch_by_name ++ [("x", mkSeries "float64" [7; 8]%Z)])
  = (Scenario.batch_by_name, Ok Scenario.batch_by_name).
Proof.
  apply (frame_after_normal_return
           (Scenario.by_name Scenario.identity [])
           (Scenario.batch_by_name ++ [("x", mkSeries "float64" [7; 8]%Z)])
           TheArgument).
  - apply scenario_supplied_NoDup.
  - intros x. reflexivity.
  - vm_compute. reflexivity.
Defined.

Lemma bare_column_gone_witness :
  "x" ∉ keys (get_transformed_features_df
                (Scenario.by_name Scenario.double []) true
                (Scenario.batch_by_name
                   ++ [("x", mkSeries "float64" [7; 8]%Z)])).1.
Proof.
  apply (bare_column_gone
           (Scenario.by_name Scenario.double [])
           (Scenario.batch_by_name ++ [("x", mkSeries "float64" [7; 8]%Z)])
           (Fresh [("y", mkSeries "float64" [2; 4]%Z)])
           Scenario.driver_stats Scenario.x).
  - apply scenario_supplied_NoDup.
  - intros x. reflexivity.
  - vm_compute. reflexivity.
  - vm_compute. left.
  - vm_compute. left.
  - vm_compute. left.
Defined.

Lemma columns_left_on_raise_witness :
  get_transformed_features_df (Scenario.by_name Scenario.failing []) true
                              Scenario.batch_by_name
  = (Scenario.batch_by_name ++ [("x", mkSeries "float64" [1; 2]%Z)],
     Err (Raised "ValueError")).
Proof.
  apply (columns_left_on_raise (Scenario.by_name Scenario.failing [])
                               Scenario.batch_by_name (Raised "ValueError")).
  - apply scenario_batch_NoDup.
  - intros x. reflexivity.
  - apply NoDup_singleton.
  - intros element ->%list_elem_of_singleton. vm_compute.
    by intros ?%list_elem_of_singleton.
  - intros element element' ->%list_elem_of_singleton
      ->%list_elem_of_singleton. vm_compute. discriminate.
  - vm_compute. reflexivity.
Defined.

Lemma no_prefixed_column_no_copy_witness :
  get_transformed_features_df (Scenario.by_alias Scenario.copy []) true
                              Scenario.batch_by_alias
  = get_transformed_features_df (Scenario.by_alias Scenario.copy []) false
                                Scenario.batch_by_alias.
Proof.
  apply (no_prefixed_column_no_copy (Scenario.by_alias Scenario.copy [])
                                    Scenario.batch_by_alias).
  intros input_fv feature ->%list_elem_of_singleton ->%list_elem_of_singleton.
  vm_compute. by intros [=]%list_elem_of_singleton.
Defined.

Lemma only_the_udf_raises_witness :
  (get_transformed_features_df (Scenario.by_name Scenario.failing []) true
                               Scenario.batch_by_name).2
  = Err (Raised "ValueError").
Proof.
  apply (only_the_udf_raises (Scenario.by_name Scenario.failing []) true
                             Scenario.batch_by_name (Raised "ValueError")).
  - apply scenario_batch_NoDup.
  - intros x. reflexivity.
  - vm_compute. reflexivity.
Defined.

Lemma removed_copy_raises_witness :
  ∃ missing,
    "x" ∈ missing
    ∧ get_transformed_features_df (Scenario.by_name Scenario.forgetful []) true
                                  Scenario.batch_by_name
      = (Scenario.batch_by_name, Err (KeyError missing)).
Proof.
  apply (removed_copy_raises (Scenario.by_name Scenario.forgetful [])
                             Scenario.batch_by_name Scenario.batch_by_name
                             (Fresh []) "x").
  - apply scenario_batch_NoDup.
  - vm_compute. reflexivity.
  - vm_compute. left.
  - vm_compute. by intros [=]%list_elem_of_singleton.
Defined.

(** ** [infer_features_from_batch_source]: the probe frame and the
       outcomes of the call *)

Section ComprehensionFacts.
Context {A B : Type}.
Implicit Types (f : A → result B).

(** A comprehension that succeeded gave each answer for the member at
    its place. *)
Lemma for_each_Forall2 f (l : list A) (r : list B) :
  for_each f l = Ok r → Forall2 (λ a b, f a = Ok b) l r.
Proof.
  revert r. induction l as [|a l IH]; intros r; simpl.
  - intros [= <-]. constructor.
  - destruct (f a) as [b|e] eqn:Hb; simpl; [|done].
    destruct (for_each f l) as [bs|e]; simpl; [|done].
    intros [= <-]. constructor; [done | by apply IH].
Qed.

(** A comprehension raises what its body raises on the first member it
    fails on. *)
Lemma for_each_first_error f (l1 l2 : list A) (a : A) (e : exn) :
  (∀ x, x ∈ l1 → ∃ b, f x = Ok b) →
  f a = Err e →
  for_each f (l1 ++ a :: l2) = Err e.
Proof.
  intros Hl1 Ha. induction l1 as [|x l1 IH]; simpl.
  - by rewrite Ha.
  - destruct (Hl1 x) as [b ->]; [left|]. simpl.
    rewrite IH; [done|]. intros y Hy. apply Hl1. by right.
Qed.
End ComprehensionFacts.

Section ProbeFacts.
Context {Value ValueType : Type}.
Variable feast_value_type_to_pandas_type : ValueType → result string.
Implicit Types (df : DataFrame Value).
Implicit Types (views : list (FeatureView.t ValueType)).
Implicit Types (feature_view : FeatureView.t ValueType).
Implicit Types (feature : Feature.t ValueType).

Local Abbreviation probe_feature :=
  (probe_feature (Value:=Value) feast_value_type_to_pandas_type).
Local Abbreviation probe_from :=
  (probe_from (Value:=Value) feast_value_type_to_pandas_type).
Local Abbreviation probe_frame :=
  (probe_frame (Value:=Value) feast_value_type_to_pandas_type).

Local Arguments elements {_} _ : simpl never.

Lemma NoDup_keys_setitem df k (s : Series Value) :
  NoDup (keys df) → NoDup (keys (setitem df k s)).
Proof.
  intros Hdf. unfold setitem. case_decide as Hk.
  - by rewrite keys_fmap_assign.
  - rewrite keys_app. apply NoDup_app. split_and!; [done| |apply NoDup_singleton].
    by intros c Hc ->%list_elem_of_singleton.
Qed.

Lemma probe_feature_NoDup feature_view feature df df' :
  probe_feature feature_view df feature = Ok df' →
  NoDup (keys df) → NoDup (keys df').
Proof.
  unfold probe_feature.
  destruct (feast_value_type_to_pandas_type (Feature.dtype feature));
    simpl; [|done].
  intros [= <-] Hdf. by do 2 apply NoDup_keys_setitem.
Qed.

(** What the loops make of the elements, one after the other: the frame
    if the type map knows the type of each, and otherwise what the type
    map raises on one of them. *)
Lemma probe_view_outcome feature_view
  (features : list (Feature.t ValueType)) df :
  match fold_each (probe_feature feature_view) df features with
  | Ok df' =>
      (NoDup (keys df) → NoDup (keys df'))
      ∧ ∀ feature, feature ∈ features →
          ∃ dt, feast_value_type_to_pandas_type (Feature.dtype feature) = Ok dt
  | Err e =>
      ∃ feature, feature ∈ features
                 ∧ feast_value_type_to_pandas_type (Feature.dtype feature)
                   = Err e
  end.
Proof.
  revert df. induction features as [|f fs IH]; intros df; simpl.
  - split; [done | by intros ? ?%elem_of_nil].
  - destruct (probe_feature feature_view df f) as [df1|e] eqn:Hstep; simpl.
    + specialize (IH df1).
      destruct (fold_each (probe_feature feature_view) df1 fs) as [df'|e].
      * destruct IH as [Hkeys Hknown]. split.
        -- intros Hdf. by eapply Hkeys, probe_feature_NoDup.
        -- intros g [-> | Hg]%elem_of_cons; [|by apply Hknown].
           unfold probe_feature in Hstep.
           destruct (feast_value_type_to_pandas_type (Feature.dtype f));
             [by eexists | done].
      * destruct IH as (g & Hg & He). exists g. split; [by right | done].
    + exists f. split; [left|]. unfold probe_feature in Hstep.
      destruct (feast_value_type_to_pandas_type (Feature.dtype f));
        simpl in Hstep; by simplify_eq.
Qed.

Lemma probe_from_outcome views df :
  match probe_from views df with
  | Ok df' =>
      (NoDup (keys df) → NoDup (keys df'))
      ∧ ∀ element, element ∈ elements views →
          ∃ dt, feast_value_type_to_pandas_type (Feature.dtype element.2)
                = Ok dt
  | Err e =>
      ∃ element, element ∈ elements views
                 ∧ feast_value_type_to_pandas_type (Feature.dtype element.2)
                   = Err e
  end.
Proof.
  revert df. induction views as [|fv views IH]; intros df.
  - simpl. split; [done | by intros ? ?%elem_of_nil].
  - pose proof (probe_view_outcome fv (FeatureView.features fv) df) as Hfv.
    unfold probe_from. simpl.
    destruct (fold_each (probe_feature fv) df (FeatureView.features fv))
      as [df1|e]; simpl.
    + specialize (IH df1). unfold probe_from in IH.
      destruct (fold_each _ df1 views) as [df'|e].
      * destruct IH as [Hkeys Hknown], Hfv as [Hkeys1 Hknown1]. split.
        -- intros Hdf. by apply Hkeys, Hkeys1.
        -- intros [fv' f]. rewrite elements_cons, elem_of_app.
           intros [(g & [= -> ->] & Hg)%list_elem_of_fmap | Hel].
           ++ by apply Hknown1.
           ++ by apply (Hknown (fv', f)).
      * destruct IH as (el & Hel & He). exists el. split; [|done].
        rewrite elements_cons, elem_of_app. by right.
    + destruct Hfv as (f & Hf & He). exists (fv, f). split; [|done].
      rewrite elements_cons, elem_of_app. left.
      apply list_elem_of_fmap. by exists f.
Qed.

(** X7.  The probe frame carries each label once, and its labels are the
    prefixed and the bare names of the elements of the upstream views,
    and no other. *)
Theorem probe_frame_labels views df :
  probe_frame views = Ok df →
  NoDup (keys df)
  ∧ ∀ c, c ∈ keys df
         ↔ ∃ element, element ∈ elements views ∧ c ∈ probe_labels element.
Proof.
  intros Hdf. split.
  - pose proof (probe_from_outcome views []) as Hout.
    change (probe_from views []) with (probe_frame views) in Hout.
    rewrite Hdf in Hout. apply Hout. constructor.
  - destruct (probe_from_probed feast_value_type_to_pandas_type views [] [] df)
      as [Hlabels Hcolumns]; [|done|].
    { split; [by intros ? ? ?%elem_of_nil | by intros ? ? ?%elem_of_nil]. }
    simpl in Hlabels, Hcolumns. intros c. split.
    + unfold keys. intros ([c' s] & -> & Hin)%list_elem_of_fmap.
      destruct (Hcolumns c' s Hin) as [_ (element & Hel & Hc & _)]. eauto.
    + intros (element & Hel & Hc). by eapply Hlabels.
Qed.
End ProbeFacts.

Section InferenceOutcomes.
Context {Value ValueType : Type} `{EqDecision ValueType}.
Variable feast_value_type_to_pandas_type : ValueType → result string.
Variable python_type_to_feast_value_type : string → string → result ValueType.
Implicit Types (self : ODFV Value ValueType) (df : DataFrame Value).

Local Abbreviation probe_frame :=
  (probe_frame (Value:=Value) feast_value_type_to_pandas_type).
Local Abbreviation inferred_feature :=
  (inferred_feature (Value:=Value) python_type_to_feast_value_type).
Local Abbreviation infer_features_from_batch_source :=
  (infer_features_from_batch_source feast_value_type_to_pandas_type
                                    python_type_to_feast_value_type).

(** X8.  When the type map raises on the declared type of some element
    of an upstream view, the call raises what the type map raises on one
    of the elements, and the object is left as it was. *)
Theorem unmapped_type_raises self
  (element : FeatureView.t ValueType * Feature.t ValueType) (e : exn) :
  element ∈ elements (OnDemandFeatureView.inputs self).*2 →
  feast_value_type_to_pandas_type (Feature.dtype element.2) = Err e →
  ∃ element' e',
    element' ∈ elements (OnDemandFeatureView.inputs self).*2
    ∧ feast_value_type_to_pandas_type (Feature.dtype element'.2) = Err e'
    ∧ infer_features_from_batch_source self = (self, Err e').
Proof.
  intros Hel He. unfold infer_features_from_batch_source.
  pose proof (probe_from_outcome (Value:=Value)
                feast_value_type_to_pandas_type
                (OnDemandFeatureView.inputs self).*2 []) as Hout.
  change (probe_from feast_value_type_to_pandas_type
            (OnDemandFeatureView.inputs self).*2 [])
    with (probe_frame (OnDemandFeatureView.inputs self).*2) in Hout.
  destruct (probe_frame (OnDemandFeatureView.inputs self).*2) as [df|e'].
  - destruct Hout as [_ Hknown]. destruct (Hknown element Hel) as [dt Hdt].
    congruence.
  - destruct Hout as (element' & Hel' & He'). by exists element', e'.
Qed.

Lemma inferred_features_match (out : DataFrame Value)
  (inferred_features : list (Feature.t ValueType)) :
  for_each inferred_feature out = Ok inferred_features →
  ∀ g, g ∈ inferred_features →
       ∃ column, column ∈ out
                 ∧ Feature.name g = column.1
                 ∧ python_type_to_feast_value_type column.1 (dtype column.2)
                   = Ok (Feature.dtype g).
Proof.
  intros Hfs%for_each_Forall2 g Hg.
  apply list_elem_of_lookup in Hg as [i Hi].
  destruct (Forall2_lookup_r _ _ _ _ _ Hfs Hi) as (column & Hcol & Hinf).
  exists column. split; [by eapply list_elem_of_lookup_2|].
  unfold inferred_feature in Hinf.
  destruct (python_type_to_feast_value_type column.1 (dtype column.2));
    simpl in Hinf; by simplify_eq.
Qed.

Lemma not_in_self (inferred_features : list (Feature.t ValueType)) :
  filter (λ f, not_in f inferred_features) inferred_features = [].
Proof.
  apply filter_none, Forall_forall. intros f Hf Hnot. apply Hnot.
  apply Exists_exists. by exists f.
Qed.

(** X9.  After a call that returned, a second call returns as well and
    changes nothing. *)
Theorem inference_idempotent self :
  (infer_features_from_batch_source self).2 = Ok () →
  infer_features_from_batch_source (infer_features_from_batch_source self).1
  = ((infer_features_from_batch_source self).1, Ok ()).
Proof.
  destruct self as [name features inputs udf].
  unfold infer_features_from_batch_source.
  cbn [OnDemandFeatureView.inputs OnDemandFeatureView.udf].
  destruct (probe_frame inputs.*2) as [df|e] eqn:Hdf; [|done].
  destruct (Udf.run udf df) as [out|e] eqn:Hout; [|done].
  destruct (for_each inferred_feature out) as [fs|e] eqn:Hfs; [|done].
  unfold reconcile, check_features, with_features.
  cbn [OnDemandFeatureView.features OnDemandFeatureView.inputs
       OnDemandFeatureView.udf OnDemandFeatureView.name].
  destruct features as [|f0 declared].
  - destruct fs as [|g fs']; [done|]. intros _.
    cbn [fst OnDemandFeatureView.features OnDemandFeatureView.inputs
         OnDemandFeatureView.udf OnDemandFeatureView.name].
    rewrite Hdf, Hout, Hfs. cbv zeta. by rewrite (not_in_self (g :: fs')).
  - cbv zeta.
    destruct (filter _ (f0 :: declared)) as [|m ms] eqn:Hmissing; [|done].
    intros _.
    cbn [fst OnDemandFeatureView.features OnDemandFeatureView.inputs
         OnDemandFeatureView.udf OnDemandFeatureView.name].
    rewrite Hdf, Hout, Hfs. cbv zeta. by rewrite Hmissing.
Qed.

(** X10.  After a call that returned, every feature of the definition,
    declared or inferred, is a column of the frame the user function
    returned on the probe, under its name and with the value type the
    type map gives for the column. *)
Theorem inferred_features_produced self :
  (infer_features_from_batch_source self).2 = Ok () →
  ∃ df out,
    probe_frame (OnDemandFeatureView.inputs self).*2 = Ok df
    ∧ Udf.run (OnDemandFeatureView.udf self) df = Ok out
    ∧ ∀ f, f ∈ OnDemandFeatureView.features
                 (infer_features_from_batch_source self).1 →
           ∃ column,
             column ∈ out
             ∧ Feature.name f = column.1
             ∧ python_type_to_feast_value_type column.1 (dtype column.2)
               = Ok (Feature.dtype f).
Proof.
  destruct self as [name features inputs udf].
  unfold infer_features_from_batch_source.
  cbn [OnDemandFeatureView.inputs OnDemandFeatureView.udf].
  destruct (probe_frame inputs.*2) as [df|e] eqn:Hdf; [|done].
  destruct (Udf.run udf df) as [out|e] eqn:Hout; [|done].
  destruct (for_each inferred_feature out) as [fs|e] eqn:Hfs; [|done].
  pose proof (inferred_features_match out fs Hfs) as Hmatch.
  intros Hok. exists df, out. split_and!; [done..|].
  revert Hok. unfold reconcile, check_features, with_features.
  cbn [OnDemandFeatureView.features OnDemandFeatureView.inputs
       OnDemandFeatureView.udf OnDemandFeatureView.name].
  destruct features as [|f0 declared].
  - destruct fs; [done|]. intros _. apply Hmatch.
  - cbv zeta.
    destruct (filter _ (f0 :: declared)) as [|m ms] eqn:Hmissing; [|done].
    intros _ f Hf. cbn in Hf.
    destruct (decide (not_in f fs)) as [Hnot|Hin].
    + assert (f ∈ filter (λ f, not_in f fs) (f0 :: declared)) as Hf'
        by by apply list_elem_of_filter.
      rewrite Hmissing in Hf'. by apply elem_of_nil in Hf'.
    + unfold not_in in Hin. apply dec_stable in Hin.
      apply Exists_exists in Hin as (g & Hg & Hname & Htype).
      destruct (Hmatch g Hg) as (column & Hcol & Hn & Ht).
      exists column. split_and!; [done|congruence..].
Qed.

(** X11.  A call that raises, whatever it raises, leaves the object as it
    was. *)
Theorem failed_inference_leaves_object self (e : exn) :
  (infer_features_from_batch_source self).2 = Err e →
  (infer_features_from_batch_source self).1 = self.
Proof.
  unfold infer_features_from_batch_source.
  destruct (probe_frame _) as [df|e1]; [|done].
  destruct (Udf.run _ df) as [out|e2]; [|done].
  destruct (for_each inferred_feature out) as [fs|e3]; [|done].
  unfold reconcile, check_features, with_features.
  destruct self as [name features inputs udf]. simpl.
  destruct features as [|f0 declared].
  - simpl. by destruct fs.
  - cbv zeta. by destruct (filter _ (f0 :: declared)).
Qed.
End InferenceOutcomes.

Lemma probe_frame_labels_witness :
  NoDup (keys [("driver_stats__x", mkSeries (Value:=Z) "float64" []);
               ("x", mkSeries "float64" [])])
  ∧ ∀ c, c ∈ keys [("driver_stats__x", mkSeries (Value:=Z) "float64" []);
                   ("x", mkSeries "float64" [])]
         ↔ ∃ element, element ∈ elements [Scenario.driver_stats]
                      ∧ c ∈ probe_labels element.
Proof.
  apply (probe_frame_labels Scenario.feast_value_type_to_pandas_type
                            [Scenario.driver_stats]).
  vm_compute. reflexivity.
Defined.

Lemma unmapped_type_raises_witness :
  ∃ element' e',
    element' ∈ elements (OnDemandFeatureView.inputs Scenario.over_names).*2
    ∧ Scenario.numbers_to_pandas_type (Feature.dtype element'.2) = Err e'
    ∧ infer_features_from_batch_source
        Scenario.numbers_to_pandas_type
        Scenario.python_type_to_feast_value_type Scenario.over_names
      = (Scenario.over_names, Err e').
Proof.
  apply (unmapped_type_raises
           Scenario.numbers_to_pandas_type
           Scenario.python_type_to_feast_value_type Scenario.over_names
           (Scenario.names, Feature.mk "n" Scenario.STRING ∅)
           (Raised "ValueError")).
  - vm_compute. left.
  - reflexivity.
Defined.

Lemma inference_idempotent_witness :
  let inferred :=
    (infer_features_from_batch_source
       Scenario.feast_value_type_to_pandas_type
       Scenario.python_type_to_feast_value_type
       (Scenario.by_name Scenario.double [])).1 in
  infer_features_from_batch_source
    Scenario.feast_value_type_to_pandas_type
    Scenario.python_type_to_feast_value_type inferred
  = (inferred, Ok ()).
Proof.
  apply (inference_idempotent
           Scenario.feast_value_type_to_pandas_type
           Scenario.python_type_to_feast_value_type
           (Scenario.by_name Scenario.double [])).
  vm_compute. reflexivity.
Defined.

Lemma inferred_features_produced_witness :
  ∃ df out : DataFrame Z,
    probe_frame Scenario.feast_value_type_to_pandas_type
                [Scenario.driver_stats] = Ok df
    ∧ Udf.run Scenario.double df = Ok out
    ∧ ∀ f, f ∈ OnDemandFeatureView.features
                 (infer_features_from_batch_source
                    Scenario.feast_value_type_to_pandas_type
                    Scenario.python_type_to_feast_value_type
                    (Scenario.by_name Scenario.double [])).1 →
           ∃ column,
             column ∈ out
             ∧ Feature.name f = column.1
             ∧ Scenario.python_type_to_feast_value_type
                 column.1 (dtype column.2)
               = Ok (Feature.dtype f).
Proof.
  apply (inferred_features_produced
           Scenario.feast_value_type_to_pandas_type
           Scenario.python_type_to_feast_value_type
           (Scenario.by_name Scenario.double [])).
  vm_compute. reflexivity.
Defined.

Lemma failed_inference_leaves_object_witness :
  (infer_features_from_batch_source
     Scenario.feast_value_type_to_pandas_type
     Scenario.python_type_to_feast_value_type
     (Scenario.by_name Scenario.nothing [])).1
  = Scenario.by_name Scenario.nothing [].
Proof.
  apply (failed_inference_leaves_object
           Scenario.feast_value_type_to_pandas_type
           Scenario.python_type_to_feast_value_type
           (Scenario.by_name Scenario.nothing [])
           (RegistryInferenceFailure
              "OnDemandFeatureView"
              "Could not infer Features for the feature view 'nothing'.")).
  vm_compute. reflexivity.
Defined.

(** ** [to_proto] and [from_proto]: what a wire form decodes to *)

Section UndoFacts.
Context {A B : Type}.

(** Answers whose images under [g] are the members they were given for,
    mapped back by [g], are the list the comprehension ran over. *)
Lemma Forall2_undo (f : A → result B) (g : B → A) (l : list A) (r : list B) :
  Forall2 (λ a b, f a = Ok b) l r →
  (∀ a b, a ∈ l → f a = Ok b → g b = a) →
  g <$> r = l.
Proof.
  induction 1 as [|a b l r Hab _ IH]; intros Hundo; [done|].
  rewrite fmap_cons. f_equal.
  - apply Hundo; [left | done].
  - apply IH. intros a' b' Ha'. apply Hundo. by right.
Qed.
End UndoFacts.

Section DecodeFacts.
Context {Value ValueType FeatureViewProto : Type}.
Variable ValueType_of : Z → result ValueType.
Variable FeatureView_from_proto :
  FeatureViewProto → result (FeatureView.t ValueType).
Variable dill_loads : list Byte.byte → result (Udf.t Value).

Local Abbreviation from_proto :=
  (from_proto ValueType_of FeatureView_from_proto dill_loads).

(** What a successful [from_proto] went through. *)
Lemma from_proto_Ok (proto : OnDemandFeatureViewProto.t FeatureViewProto)
  (decoded : ODFV Value ValueType) :
  from_proto proto = Ok decoded →
  for_each (Feature_of_proto ValueType_of)
           (OnDemandFeatureViewSpec.features
              (OnDemandFeatureViewProto.spec proto))
  = Ok (OnDemandFeatureView.features decoded)
  ∧ for_each (input_of_proto FeatureView_from_proto)
             (map_to_list (OnDemandFeatureViewSpec.inputs
                             (OnDemandFeatureViewProto.spec proto)))
    = Ok (OnDemandFeatureView.inputs decoded)
  ∧ dill_loads (UserDefinedFunctionProto.body
                  (OnDemandFeatureViewSpec.user_defined_function
                     (OnDemandFeatureViewProto.spec proto)))
    = Ok (OnDemandFeatureView.udf decoded)
  ∧ OnDemandFeatureView.name decoded
    = OnDemandFeatureViewSpec.name (OnDemandFeatureViewProto.spec proto).
Proof.
  unfold from_proto.
  destruct (for_each (Feature_of_proto _) _) as [features|e]; simpl; [|done].
  destruct (for_each (input_of_proto _) _) as [inputs|e]; simpl; [|done].
  destruct (dill_loads _) as [udf|e]; simpl; [|done].
  by intros [= <-].
Qed.

(** X12.  A definition [from_proto] returns has the name of the wire
    form, one feature for each feature of the wire form, in order, with
    its name, its labels and the member of its number, distinct aliases,
    a binding for exactly the entries of the wire map, each with the
    view its entry decodes to, and the function dill loads from the
    body. *)
Theorem decoded_definition
  (proto : OnDemandFeatureViewProto.t FeatureViewProto)
  (decoded : ODFV Value ValueType) :
  from_proto proto = Ok decoded →
  let spec := OnDemandFeatureViewProto.spec proto in
  OnDemandFeatureView.name decoded = OnDemandFeatureViewSpec.name spec
  ∧ Forall2 (λ wire feature,
               Feature.name feature = FeatureSpecProto.name wire
               ∧ ValueType_of (FeatureSpecProto.value_type wire)
                 = Ok (Feature.dtype feature)
               ∧ Feature.labels feature = FeatureSpecProto.labels wire)
            (OnDemandFeatureViewSpec.features spec)
            (OnDemandFeatureView.features decoded)
  ∧ NoDup (OnDemandFeatureView.inputs decoded).*1
  ∧ (∀ alias feature_view,
       (alias, feature_view) ∈ OnDemandFeatureView.inputs decoded
       ↔ ∃ wire, OnDemandFeatureViewSpec.inputs spec !! alias = Some wire
                 ∧ FeatureView_from_proto wire = Ok feature_view)
  ∧ dill_loads (UserDefinedFunctionProto.body
                  (OnDemandFeatureViewSpec.user_defined_function spec))
    = Ok (OnDemandFeatureView.udf decoded).
Proof.
  intros (Hfeatures & Hinputs & Hudf & Hname)%from_proto_Ok spec.
  apply for_each_Forall2 in Hfeatures, Hinputs. fold spec in Hfeatures, Hinputs.
  assert (∀ item binding,
            input_of_proto FeatureView_from_proto item = Ok binding →
            binding.1 = item.1
            ∧ FeatureView_from_proto item.2 = Ok binding.2) as Hitem.
  { intros [k wire] binding. unfold input_of_proto. simpl.
    destruct (FeatureView_from_proto wire); simpl; [|done].
    by intros [= <-]. }
  split_and!; [done| | | |done].
  - eapply Forall2_impl; [exact Hfeatures|].
    intros wire feature. unfold Feature_of_proto.
    destruct (ValueType_of (FeatureSpecProto.value_type wire)); simpl; [|done].
    by intros [= <-].
  - assert ((OnDemandFeatureView.inputs decoded).*1
            = (map_to_list (OnDemandFeatureViewSpec.inputs spec)).*1) as ->.
    { symmetry. apply list_eq_Forall2, Forall2_fmap.
      eapply Forall2_impl; [exact Hinputs|].
      intros item binding Hib. symmetry. by apply Hitem. }
    apply NoDup_fst_map_to_list.
  - intros alias feature_view. split.
    + intros [i Hi]%list_elem_of_lookup.
      destruct (Forall2_lookup_r _ _ _ _ _ Hinputs Hi)
        as ([k wire] & Hitem_i & Hdec).
      apply Hitem in Hdec as [Hk Hfv]. simpl in *. subst k.
      exists wire. split; [|done].
      apply elem_of_map_to_list. by eapply list_elem_of_lookup_2.
    + intros (wire & [i Hi]%elem_of_map_to_list%list_elem_of_lookup & Hfv).
      destruct (Forall2_lookup_l _ _ _ _ _ Hinputs Hi)
        as ([k fv] & Hbinding & Hdec).
      apply Hitem in Hdec as [Hk Hfv']. simpl in *. subst k.
      rewrite Hfv in Hfv'. injection Hfv' as <-.
      by eapply list_elem_of_lookup_2.
Qed.

(** X15.  A feature of the wire form whose number has no member of the
    enumeration makes [from_proto] raise what [ValueType(n)] raises for
    the first such feature, whatever the inputs and the body are. *)
Theorem unknown_value_type_raises
  (proto : OnDemandFeatureViewProto.t FeatureViewProto)
  (before after : list FeatureSpecProto.t) (wire : FeatureSpecProto.t)
  (e : exn) :
  OnDemandFeatureViewSpec.features (OnDemandFeatureViewProto.spec proto)
  = before ++ wire :: after →
  (∀ w, w ∈ before →
        ∃ t, ValueType_of (FeatureSpecProto.value_type w) = Ok t) →
  ValueType_of (FeatureSpecProto.value_type wire) = Err e →
  from_proto proto = Err e.
Proof.
  intros Hfeatures Hbefore Hwire. unfold from_proto. rewrite Hfeatures.
  rewrite (for_each_first_error _ before after wire e); [done| |].
  - intros w Hw. destruct (Hbefore w Hw) as [t Ht].
    unfold Feature_of_proto. rewrite Ht. by eexists.
  - unfold Feature_of_proto. by rewrite Hwire.
Qed.
End DecodeFacts.

Section EncodeFacts.
Context {Value ValueType FeatureViewProto : Type}.
Variable value : ValueType → Z.
Variable ValueType_of : Z → result ValueType.
Variable FeatureView_to_proto : FeatureView.t ValueType → FeatureViewProto.
Variable FeatureView_from_proto :
  FeatureViewProto → result (FeatureView.t ValueType).
Variable dill_dumps : Udf.t Value → result (list Byte.byte).
Variable dill_loads : list Byte.byte → result (Udf.t Value).

Local Abbreviation to_proto :=
  (to_proto value FeatureView_to_proto dill_dumps).
Local Abbreviation from_proto :=
  (from_proto ValueType_of FeatureView_from_proto dill_loads).

(** X13.  Encoding what a wire form decoded to gives the wire form back,
    when the collaborators undo on it what they did (the number of each
    decoded value type is the number it was made from, each decoded view
    encodes to its entry, dill dumps the loaded function to the body)
    and the loaded function bears the name the wire form records for
    it. *)
Theorem encode_decoded (proto : OnDemandFeatureViewProto.t FeatureViewProto)
  (decoded : ODFV Value ValueType) :
  from_proto proto = Ok decoded →
  (∀ wire t,
     wire ∈ OnDemandFeatureViewSpec.features
              (OnDemandFeatureViewProto.spec proto) →
     ValueType_of (FeatureSpecProto.value_type wire) = Ok t →
     value t = FeatureSpecProto.value_type wire) →
  (∀ alias wire feature_view,
     OnDemandFeatureViewSpec.inputs (OnDemandFeatureViewProto.spec proto)
       !! alias = Some wire →
     FeatureView_from_proto wire = Ok feature_view →
     FeatureView_to_proto feature_view = wire) →
  dill_dumps (OnDemandFeatureView.udf decoded)
  = Ok (UserDefinedFunctionProto.body
          (OnDemandFeatureViewSpec.user_defined_function
             (OnDemandFeatureViewProto.spec proto))) →
  Udf.__name__ (OnDemandFeatureView.udf decoded)
  = UserDefinedFunctionProto.name
      (OnDemandFeatureViewSpec.user_defined_function
         (OnDemandFeatureViewProto.spec proto)) →
  to_proto decoded = Ok proto.
Proof.
  intros (Hfeatures & Hinputs & _ & Hname)%from_proto_Ok
         Henum Hviews Hdumps Hfunction.
  apply for_each_Forall2 in Hfeatures, Hinputs.
  unfold to_proto. rewrite Hdumps, Hfunction, Hname.
  destruct proto as [[n wires m [function_name body]]]. cbn in *.
  do 3 f_equal.
  - apply (Forall2_undo _ _ _ _ Hfeatures).
    intros [wn wt wl] f Hwire. unfold Feature_of_proto. cbn.
    destruct (ValueType_of wt) as [t|e] eqn:Ht; cbn; [|done].
    intros [= <-]. unfold Feature_to_proto. cbn. f_equal.
    by apply (Henum (FeatureSpecProto.mk wn wt wl)).
  - etrans; [|apply list_to_map_to_list]. f_equal.
    apply (Forall2_undo _ _ _ _ Hinputs).
    intros [alias wire] binding Hitem%elem_of_map_to_list.
    unfold input_of_proto. cbn.
    destruct (FeatureView_from_proto wire) as [fv|e] eqn:Hfv; cbn; [|done].
    intros [= <-]. cbn. f_equal. by eapply Hviews.
Qed.

(** X14.  In the wire form [to_proto] returns for a definition with
    distinct aliases, the entries of the inputs map are the bindings of
    the definition, each alias with the encoding of its view. *)
Theorem encoded_inputs (self : ODFV Value ValueType)
  (proto : OnDemandFeatureViewProto.t FeatureViewProto) :
  to_proto self = Ok proto →
  NoDup (OnDemandFeatureView.inputs self).*1 →
  ∀ alias wire,
    OnDemandFeatureViewSpec.inputs (OnDemandFeatureViewProto.spec proto)
      !! alias = Some wire
    ↔ ∃ feature_view,
        (alias, feature_view) ∈ OnDemandFeatureView.inputs self
        ∧ wire = FeatureView_to_proto feature_view.
Proof.
  unfold to_proto.
  destruct (dill_dumps (OnDemandFeatureView.udf self)) as [body|e];
    cbn; [|done].
  intros [= <-] Haliases alias wire. cbn.
  rewrite <- elem_of_list_to_map.
  - rewrite list_elem_of_fmap. split.
    + intros ([k fv] & [= -> ->] & Hin). by exists fv.
    + intros (fv & Hin & ->). by exists (alias, fv).
  - rewrite <- list_fmap_compose.
    assert ((fst ∘ prod_map id FeatureView_to_proto)
              <$> OnDemandFeatureView.inputs self
            = (OnDemandFeatureView.inputs self).*1) as ->; [|done].
    apply list_fmap_ext. by intros i [k fv] _.
Qed.
End EncodeFacts.

(** *** The scenario, encoded and decoded *)

Lemma scenario_decoded :
  from_proto Scenario.ValueType_of Scenario.FeatureView_from_proto
             Scenario.dill_loads Scenario.encoded
  = Ok (Scenario.by_name Scenario.double [Feature.mk "y" Scenario.FLOAT ∅]).
Proof. vm_compute. reflexivity. Qed.

Lemma scenario_encoded :
  to_proto Scenario.value Scenario.FeatureView_to_proto Scenario.dill_dumps
           (Scenario.by_name Scenario.double
                             [Feature.mk "y" Scenario.FLOAT ∅])
  = Ok Scenario.encoded.
Proof. vm_compute. reflexivity. Qed.

Lemma decoded_definition_witness :
  let spec := OnDemandFeatureViewProto.spec Scenario.encoded in
  let decoded := Scenario.by_name Scenario.double
                   [Feature.mk "y" Scenario.FLOAT ∅] in
  OnDemandFeatureView.name decoded = OnDemandFeatureViewSpec.name spec
  ∧ Forall2 (λ wire feature,
               Feature.name feature = FeatureSpecProto.name wire
               ∧ Scenario.ValueType_of (FeatureSpecProto.value_type wire)
                 = Ok (Feature.dtype feature)
               ∧ Feature.labels feature = FeatureSpecProto.labels wire)
            (OnDemandFeatureViewSpec.features spec)
            (OnDemandFeatureView.features decoded)
  ∧ NoDup (OnDemandFeatureView.inputs decoded).*1
  ∧ (∀ alias feature_view,
       (alias, feature_view) ∈ OnDemandFeatureView.inputs decoded
       ↔ ∃ wire, OnDemandFeatureViewSpec.inputs spec !! alias = Some wire
                 ∧ Scenario.FeatureView_from_proto wire = Ok feature_view)
  ∧ Scenario.dill_loads
      (UserDefinedFunctionProto.body
         (OnDemandFeatureViewSpec.user_defined_function spec))
    = Ok (OnDemandFeatureView.udf decoded).
Proof.
  apply (decoded_definition
           Scenario.ValueType_of Scenario.FeatureView_from_proto
           Scenario.dill_loads Scenario.encoded
           (Scenario.by_name Scenario.double
                             [Feature.mk "y" Scenario.FLOAT ∅])).
  vm_compute. reflexivity.
Defined.

Lemma encode_decoded_witness :
  to_proto Scenario.value Scenario.FeatureView_to_proto Scenario.dill_dumps
           (Scenario.by_name Scenario.double
                             [Feature.mk "y" Scenario.FLOAT ∅])
  = Ok Scenario.encoded.
Proof.
  apply (encode_decoded
           Scenario.value Scenario.ValueType_of
           Scenario.FeatureView_to_proto Scenario.FeatureView_from_proto
           Scenario.dill_dumps Scenario.dill_loads Scenario.encoded
           (Scenario.by_name Scenario.double
                             [Feature.mk "y" Scenario.FLOAT ∅])).
  - vm_compute. reflexivity.
  - intros wire t ->%list_elem_of_singleton. vm_compute.
    intros [= <-]. reflexivity.
  - intros alias wire feature_view _. unfold Scenario.FeatureView_from_proto.
    intros [= <-]. reflexivity.
  - vm_compute. reflexivity.
  - reflexivity.
Defined.

Lemma encoded_inputs_witness :
  OnDemandFeatureViewSpec.inputs
    (OnDemandFeatureViewProto.spec Scenario.encoded) !! "driver_stats"
  = Some Scenario.driver_stats
  ↔ ∃ feature_view,
      ("driver_stats", feature_view)
        ∈ [("driver_stats", Scenario.driver_stats)]
      ∧ Scenario.driver_stats = Scenario.FeatureView_to_proto feature_view.
Proof.
  apply (encoded_inputs
           Scenario.value Scenario.FeatureView_to_proto Scenario.dill_dumps
           (Scenario.by_name Scenario.double
                             [Feature.mk "y" Scenario.FLOAT ∅])
           Scenario.encoded).
  - vm_compute. reflexivity.
  - apply NoDup_singleton.
Defined.

Lemma unknown_value_type_raises_witness :
  from_proto (Value:=Z) Scenario.ValueType_of Scenario.FeatureView_from_proto
             Scenario.dill_loads Scenario.unnumbered
  = Err (Raised "ValueError").
Proof.
  apply (unknown_value_type_raises
           Scenario.ValueType_of Scenario.FeatureView_from_proto
           Scenario.dill_loads Scenario.unnumbered
           [FeatureSpecProto.mk "y" 6 ∅] [] (FeatureSpecProto.mk "z" 99 ∅)
           (Raised "ValueError")).
  - reflexivity.
  - intros w ->%list_elem_of_singleton. eexists. vm_compute. reflexivity.
  - vm_compute. reflexivity.
Defined.
